(** * The RunPod job handler of the DeepSeek-OCR image (handler.py)

    A shallow embedding of [handler.py]: the handler resolves the PDF of a
    job, runs the OCR pipeline as a child process, collects the files the
    pipeline wrote and removes the temporary files it created itself.

    The file system is a finite map from paths to nodes, threaded through a
    state-and-exception monad; the outside world (HTTP, the child process,
    the names [tempfile] draws, the operating system's refusals) enters as
    a record of functions, [Host]. *)

From Stdlib Require Import ZArith NArith Lia.
From Stdlib Require Strings.Byte.
From Stdlib.Strings Require Import Ascii.
From stdpp Require Import gmap strings list fin_maps.

Ltac Zify.zify_post_hook ::= Z.to_euclidean_division_equations.

Local Open Scope string_scope.
Local Open Scope list_scope.

(** ** Python values *)

Definition bytes := list Byte.byte.

(** A [str] decoded from bytes (the text of a file, the captured output of
    the child process) is kept as its sequence of code points; the [str]
    values the handler only passes around (paths, command words) are kept
    as [string]. *)
Definition unicode := list N.

Inductive value :=
| VStr (s : string)
| VText (t : unicode)
| VInt (z : Z).

#[global] Instance value_eq_dec : EqDecision value.
Proof. solve_decision. Defined.

(** ** Exceptions *)

Inductive exn :=
| HandlerError (msg : string)
| HTTPError (status : Z)
| RequestException
| BinasciiError
| ValueError
| UnicodeDecodeError
| UnicodeEncodeError
| FileExistsError
| FileNotFoundError
| NotADirectoryError
| IsADirectoryError
| PermissionError.

(** [except OSError] catches the operating system's errors; the exceptions of
    [requests] derive from [IOError], which is [OSError]. *)
Definition is_OSError (e : exn) : bool :=
  match e with
  | FileExistsError | FileNotFoundError | NotADirectoryError
  | IsADirectoryError | PermissionError | HTTPError _ | RequestException => true
  | _ => false
  end.

Inductive result (A : Type) :=
| Ok (a : A)
| Raise (e : exn).
Arguments Ok {A} a.
Arguments Raise {A} e.

Definition result_map {A B} (f : A → B) (r : result A) : result B :=
  match r with Ok a => Ok (f a) | Raise e => Raise e end.

(** ** base64 (Python's [base64] over [binascii]) *)

Module Base64.

Local Open Scope N_scope.

Definition byte_of_N (n : N) : Byte.byte :=
  default Byte.x00 (Byte.of_N (n mod 256)).

Definition alphabet : bytes :=
  String.list_byte_of_string
    "ABCDEFGHIJKLMNOPQRSTUVWXYZabcdefghijklmnopqrstuvwxyz0123456789+/".

Definition BASE64_PAD : Byte.byte := Byte.x3d.

(** [table_b2a_base64]: the character of a 6-bit value. *)
Definition b2a (v : N) : Byte.byte := nth (N.to_nat v) alphabet BASE64_PAD.

Fixpoint index_of (c : Byte.byte) (l : bytes) (i : N) : option N :=
  match l with
  | [] => None
  | x :: l' => if Byte.eqb x c then Some i else index_of c l' (i + 1)
  end.

(** [table_a2b_base64]: the 6-bit value of a character, none outside the
    alphabet. *)
Definition a2b (c : Byte.byte) : option N := index_of c alphabet 0.

(** [base64.b64encode]: three bytes give four characters; one or two
    remaining bytes are padded with [=]. *)
Fixpoint b64encode (s : bytes) : bytes :=
  match s with
  | [] => []
  | [b0] =>
      let n0 := Byte.to_N b0 in
      [b2a (n0 / 4); b2a (n0 mod 4 * 16); BASE64_PAD; BASE64_PAD]
  | [b0; b1] =>
      let n0 := Byte.to_N b0 in
      let n1 := Byte.to_N b1 in
      [b2a (n0 / 4); b2a (n0 mod 4 * 16 + n1 / 16); b2a (n1 mod 16 * 4);
       BASE64_PAD]
  | b0 :: b1 :: b2 :: rest =>
      let n0 := Byte.to_N b0 in
      let n1 := Byte.to_N b1 in
      let n2 := Byte.to_N b2 in
      b2a (n0 / 4) :: b2a (n0 mod 4 * 16 + n1 / 16)
        :: b2a (n1 mod 16 * 4 + n2 / 64) :: b2a (n2 mod 64) :: b64encode rest
  end.

(** [binascii.a2b_base64] without [strict_mode], the decoder behind
    [base64.b64decode(s)]: characters outside the alphabet are skipped, a
    complete pad sequence ends the input, and leftover characters of an
    incomplete quad are an error.  [quad_pos], [leftchar] and [pads] are the
    loop's variables. *)
Fixpoint a2b_loop (data : bytes) (quad_pos : nat) (leftchar : N) (pads : nat)
  : result bytes :=
  match data with
  | [] =>
      match quad_pos with
      | O => Ok []
      | _ => Raise BinasciiError
      end
  | this_ch :: data' =>
      if Byte.eqb this_ch BASE64_PAD then
        if (2 <=? quad_pos)%nat && (4 <=? quad_pos + S pads)%nat then Ok []
        else
          a2b_loop data' quad_pos leftchar
            (if (2 <=? quad_pos)%nat then S pads else pads)
      else
        match a2b this_ch with
        | None => a2b_loop data' quad_pos leftchar pads
        | Some v =>
            match quad_pos with
            | 0%nat => a2b_loop data' 1 v 0
            | 1%nat =>
                result_map (cons (byte_of_N (leftchar * 4 + v / 16)))
                  (a2b_loop data' 2 (v mod 16) 0)
            | 2%nat =>
                result_map (cons (byte_of_N (leftchar * 16 + v / 4)))
                  (a2b_loop data' 3 (v mod 4) 0)
            | _ =>
                result_map (cons (byte_of_N (leftchar * 64 + v)))
                  (a2b_loop data' 0 0 0)
            end
        end
  end.

Definition a2b_base64 (data : bytes) : result bytes := a2b_loop data 0 0 0.

Definition is_ascii (c : Byte.byte) : bool := Byte.to_N c <? 128.

(** [base64.b64decode] of a [str]: the string is encoded as ASCII first
    ([ValueError] otherwise). *)
Definition b64decode (s : string) : result bytes :=
  let data := String.list_byte_of_string s in
  if forallb is_ascii data then a2b_base64 data else Raise ValueError.

(** Canonical base64 text (RFC 4648): quads of alphabet characters, the last
    one possibly padded with one or two [=]. *)
Definition in_alphabet (c : Byte.byte) : bool :=
  match a2b c with Some _ => true | None => false end.

Fixpoint canonical (s : bytes) : bool :=
  match s with
  | [] => true
  | [c0; c1; c2; c3] =>
      in_alphabet c0 && in_alphabet c1 &&
      (in_alphabet c2 && (in_alphabet c3 || Byte.eqb c3 BASE64_PAD)
       || Byte.eqb c2 BASE64_PAD && Byte.eqb c3 BASE64_PAD)
  | c0 :: c1 :: c2 :: c3 :: rest =>
      in_alphabet c0 && in_alphabet c1 && in_alphabet c2 && in_alphabet c3
      && canonical rest
  | _ => false
  end.

End Base64.

(** ** UTF-8 ([bytes.decode("utf-8")] and [str.encode("utf-8")], strict) *)

Module Utf8.

Local Open Scope N_scope.

Definition continuation (b : Byte.byte) : bool :=
  (0x80 <=? Byte.to_N b) && (Byte.to_N b <? 0xC0).

Definition surrogate (cp : N) : bool := (0xD800 <=? cp) && (cp <? 0xE000).

(** The strict decoder: shortest forms only, no surrogates, nothing above
    U+10FFFF, no truncated sequence. *)
Fixpoint decode (bs : bytes) : result unicode :=
  match bs with
  | [] => Ok []
  | b0 :: r0 =>
      let n0 := Byte.to_N b0 in
      if n0 <? 0x80 then result_map (cons n0) (decode r0)
      else if n0 <? 0xC2 then Raise UnicodeDecodeError
      else if n0 <? 0xE0 then
        match r0 with
        | b1 :: r1 =>
            if continuation b1 then
              result_map
                (cons ((n0 - 0xC0) * 64 + (Byte.to_N b1 - 0x80)))
                (decode r1)
            else Raise UnicodeDecodeError
        | _ => Raise UnicodeDecodeError
        end
      else if n0 <? 0xF0 then
        match r0 with
        | b1 :: b2 :: r2 =>
            let cp := (n0 - 0xE0) * 4096 + (Byte.to_N b1 - 0x80) * 64
                      + (Byte.to_N b2 - 0x80) in
            if continuation b1 && continuation b2
               && (0x800 <=? cp) && negb (surrogate cp)
            then result_map (cons cp) (decode r2)
            else Raise UnicodeDecodeError
        | _ => Raise UnicodeDecodeError
        end
      else if n0 <? 0xF5 then
        match r0 with
        | b1 :: b2 :: b3 :: r3 =>
            let cp := (n0 - 0xF0) * 262144 + (Byte.to_N b1 - 0x80) * 4096
                      + (Byte.to_N b2 - 0x80) * 64 + (Byte.to_N b3 - 0x80) in
            if continuation b1 && continuation b2 && continuation b3
               && (0x10000 <=? cp) && (cp <? 0x110000)
            then result_map (cons cp) (decode r3)
            else Raise UnicodeDecodeError
        | _ => Raise UnicodeDecodeError
        end
      else Raise UnicodeDecodeError
  end.

Definition encode_char (cp : N) : result bytes :=
  if cp <? 0x80 then Ok [Base64.byte_of_N cp]
  else if cp <? 0x800 then
    Ok [Base64.byte_of_N (0xC0 + cp / 64); Base64.byte_of_N (0x80 + cp mod 64)]
  else if cp <? 0x10000 then
    if surrogate cp then Raise UnicodeEncodeError
    else
      Ok [Base64.byte_of_N (0xE0 + cp / 4096);
          Base64.byte_of_N (0x80 + cp / 64 mod 64);
          Base64.byte_of_N (0x80 + cp mod 64)]
  else if cp <? 0x110000 then
    Ok [Base64.byte_of_N (0xF0 + cp / 262144);
        Base64.byte_of_N (0x80 + cp / 4096 mod 64);
        Base64.byte_of_N (0x80 + cp / 64 mod 64);
        Base64.byte_of_N (0x80 + cp mod 64)]
  else Raise UnicodeEncodeError.

Fixpoint encode (t : unicode) : result bytes :=
  match t with
  | [] => Ok []
  | cp :: t' =>
      match encode_char cp, encode t' with
      | Ok b, Ok bs => Ok (b ++ bs)
      | Raise e, _ => Raise e
      | _, Raise e => Raise e
      end
  end.

End Utf8.

(** ** Strings and paths *)

Definition chars (s : string) : list Ascii.ascii := String.list_ascii_of_string s.
Definition text (cs : list Ascii.ascii) : string := String.string_of_list_ascii cs.

(** [str.lower], on the ASCII letters. *)
Definition lower_char (c : Ascii.ascii) : Ascii.ascii :=
  let n := Ascii.N_of_ascii c in
  if ((65 <=? n) && (n <=? 90))%N then Ascii.ascii_of_N (n + 32) else c.

Definition lower (s : string) : string := text (lower_char <$> chars s).

Definition endswith (s suffix : string) : bool :=
  bool_decide (chars suffix `suffix_of` chars s).

(** [s[:-k]] *)
Definition drop_last (k : nat) (s : string) : string :=
  text (take (length (chars s) - k) (chars s)).

(** [str.rfind] of one character: the last index where it occurs. *)
Fixpoint rfind (c : Ascii.ascii) (cs : list Ascii.ascii) : option nat :=
  match cs with
  | [] => None
  | a :: cs' =>
      match rfind c cs' with
      | Some i => Some (S i)
      | None => if decide (a = c) then Some 0 else None
      end
  end.

(** [str.isspace] of one character, the white space [str.strip] removes
    (CPython's [_PyUnicode_IsWhitespace]): U+0009..U+000D, U+001C..U+0020,
    U+0085, U+00A0, U+1680, U+2000..U+200A, U+2028, U+2029, U+202F, U+205F
    and U+3000. *)
Definition isspace (c : N) : bool :=
  ((9 <=? c) && (c <=? 13) || (28 <=? c) && (c <=? 32)
   || (c =? 133) || (c =? 160) || (c =? 5760)
   || (8192 <=? c) && (c <=? 8202)
   || (c =? 8232) || (c =? 8233) || (c =? 8239) || (c =? 8287)
   || (c =? 12288))%N.

Fixpoint lstrip (t : unicode) : unicode :=
  match t with
  | c :: t' => if isspace c then lstrip t' else t
  | [] => []
  end.

(** [str.strip()] *)
Definition strip (t : unicode) : unicode :=
  reverse (lstrip (reverse (lstrip t))).

(** [data.replace("\r\n", "\n")] *)
Fixpoint replace_crlf (t : unicode) : unicode :=
  match t with
  | c :: t' =>
      match t' with
      | d :: t'' =>
          if ((c =? 13) && (d =? 10))%N then 10%N :: replace_crlf t''
          else c :: replace_crlf t'
      | [] => [c]
      end
  | [] => []
  end.

(** [data.replace("\r", "\n")] *)
Definition replace_cr (t : unicode) : unicode :=
  (λ c, if (c =? 13)%N then 10%N else c) <$> t.

(** A path is the list of its parts, as [pathlib] keeps them; an absolute
    path starts with the part ["/"]. *)
Abbreviation path := (list string).

Fixpoint components (cs cur : list Ascii.ascii) : list string :=
  match cs with
  | [] => [text (reverse cur)]
  | c :: cs' =>
      if decide (c = "/"%char) then text (reverse cur) :: components cs' []
      else components cs' (c :: cur)
  end.

(** [Path(s)]: empty parts and ["."] parts are dropped. *)
Definition Path (s : string) : path :=
  let parts := filter (λ p, p ≠ "" ∧ p ≠ ".") (components (chars s) []) in
  if String.prefix "/" s then "/" :: parts else parts.

(** [str(path)] *)
Definition str (p : path) : string :=
  match p with
  | [] => "."
  | "/" :: rest => "/" +:+ String.concat "/" rest
  | _ => String.concat "/" p
  end.

(** [path / name], for a single file name on the right (the handler joins
    only names it builds from a stem). *)
Definition joinpath (p : path) (name : string) : path := p ++ [name].

(** [path.name]: the last part, empty for the root and for the empty path. *)
Definition name (p : path) : string :=
  match p with
  | ["/"] => ""
  | _ => default "" (last p)
  end.

(** [path.stem]: the name without its last suffix; a leading or a trailing
    dot does not start a suffix. *)
Definition stem (p : path) : string :=
  let n := chars (name p) in
  match rfind "."%char n with
  | Some i => if bool_decide (0 < i ∧ i < length n - 1) then text (take i n)
              else name p
  | None => name p
  end.

(** [path.expanduser()], for the current user's [~]. *)
Definition expanduser (HOME : path) (p : path) : path :=
  match p with
  | "~" :: rest => HOME ++ rest
  | _ => p
  end.

(** [root_dir]-relative name of a path below [root]. *)
Fixpoint relative_to (root p : path) : option path :=
  match root, p with
  | [], _ => Some p
  | r :: root', x :: p' => if decide (r = x) then relative_to root' p' else None
  | _ :: _, [] => None
  end.

(** ** The file system and the world *)

Inductive node :=
| File (data : bytes)
| Dir.

(** What the handler asks of the outside: [HttpGet url] is one call of
    [requests.get] (which follows redirects, so one call can be several
    requests on the wire), [Spawn command] one call of [subprocess.run]. *)
Inductive action :=
| HttpGet (url : string)
| Spawn (command : list string).

(** The state of a call: the file system, and the calls made to the
    outside, oldest first. *)
Record World := {
  files : gmap path node;
  trace : list action
}.

Definition set_files (f : gmap path node → gmap path node) (w : World) : World :=
  {| files := f (files w); trace := trace w |}.

Definition log (a : action) (w : World) : World :=
  {| files := files w; trace := trace w ++ [a] |}.

(** A computation runs in a world and returns or raises; the world it leaves
    is kept in both cases. *)
Definition M (A : Type) : Type := World → result A * World.

#[global] Instance M_ret : MRet M := λ A a w, (Ok a, w).
#[global] Instance M_bind : MBind M := λ A B f m w,
  match m w with
  | (Ok a, w') => f a w'
  | (Raise e, w') => (Raise e, w')
  end.

Definition raise {A} (e : exn) : M A := λ w, (Raise e, w).

Definition lift {A} (r : result A) : M A := λ w, (r, w).

(** [try: body / except OSError: pass] *)
Definition try_except_OSError (body : M unit) : M unit := λ w,
  match body w with
  | (Raise e, w') => if is_OSError e then (Ok (), w') else (Raise e, w')
  | r => r
  end.

(** [for x in l: body] *)
Fixpoint for_each {A} (l : list A) (body : A → M unit) : M unit :=
  match l with
  | [] => mret ()
  | x :: l' => body x ;; for_each l' body
  end.

(** [Path.exists], [Path.is_file], [Path.is_dir] *)
Definition exists_ (p : path) : M bool := λ w,
  (Ok (bool_decide (is_Some (files w !! p))), w).

Definition is_file (p : path) : M bool := λ w,
  (Ok (match files w !! p with Some (File _) => true | _ => false end), w).

Definition is_dir (p : path) : M bool := λ w,
  (Ok (match files w !! p with Some Dir => true | _ => false end), w).

(** [Path.read_bytes] *)
Definition read_bytes (p : path) : M bytes := λ w,
  match files w !! p with
  | Some (File data) => (Ok data, w)
  | Some Dir => (Raise IsADirectoryError, w)
  | None => (Raise FileNotFoundError, w)
  end.

(** Writing to a file opened with mode ["wb"]. *)
Definition write_bytes (p : path) (data : bytes) : M unit := λ w,
  (Ok (), set_files (insert p (File data)) w).

(** What [shutil.make_archive] finds when it walks a directory: one entry
    for every directory and every file below [root_dir], under its name
    relative to [root_dir] (in no particular order, as the directory
    listing). *)
Definition zip_entries (root_dir : path) (fs : gmap path node)
  : list (path * node) :=
  omap (λ kv, match relative_to root_dir kv.1 with
              | Some (part :: rel) => Some (part :: rel, kv.2)
              | _ => None
              end)
       (map_to_list fs).

(** The entries of the archive: [os.walk] finds nothing where [root_dir] is
    not a directory, and reports no error. *)
Definition archive_entries (root_dir : path) (fs : gmap path node)
  : list (path * node) :=
  match fs !! root_dir with
  | Some Dir => zip_entries root_dir fs
  | _ => []
  end.

(** [os.path.normpath] on the parts of an absolute path below its root:
    empty parts and ["."] are dropped, and [".."] removes the part before
    it, if there is one. *)
Definition normpath_parts (parts : list string) : list string :=
  foldl (λ new_comps comp,
           if bool_decide (comp = "" ∨ comp = ".") then new_comps
           else if bool_decide (comp = "..") then removelast new_comps
           else new_comps ++ [comp])
        [] parts.

(** [os.path.isabs] *)
Definition isabs (p : path) : bool := bool_decide (head p = Some "/").

(** [os.path.abspath]: a relative path is joined to the working directory
    (which is absolute), and the result is normalised. *)
Definition abspath (cwd p : path) : path :=
  if isabs p then "/" :: normpath_parts (tail p)
  else "/" :: normpath_parts (tail cwd ++ p).

(** A path that [os.path.abspath] returns as it is: absolute, without
    [".."] (empty parts and ["."] are not among the parts of a [Path]). *)
Definition is_normal (p : path) : bool :=
  isabs p
  && forallb (λ comp, bool_decide (comp ≠ "" ∧ comp ≠ "." ∧ comp ≠ "..")) (tail p).

#[global] Instance byte_eq_dec : EqDecision Byte.byte := Byte.byte_eq_dec.

#[global] Instance node_eq_dec : EqDecision node.
Proof. solve_decision. Defined.

(** What a child process that terminated leaves to its parent: the exit
    code and the bytes it wrote to its standard output and standard error. *)
Record Child := {
  exit_code : Z;
  stdout_bytes : bytes;
  stderr_bytes : bytes
}.

(** [subprocess.CompletedProcess] in text mode, and the part of
    [requests.Response] the handler reads. *)
Record CompletedProcess := {
  args : list string;
  returncode : Z;
  stdout : unicode;
  stderr : unicode
}.

Record Response := {
  status_code : Z;
  content : bytes
}.

(** Equality of outcomes is decidable, so a concrete run can be checked by
    evaluation. *)
#[global] Instance exn_eq_dec : EqDecision exn.
Proof. solve_decision. Defined.

#[global] Instance result_eq_dec {A} `{EqDecision A} : EqDecision (result A).
Proof. solve_decision. Defined.

#[global] Instance action_eq_dec : EqDecision action.
Proof. solve_decision. Defined.

#[global] Instance World_eq_dec : EqDecision World.
Proof. solve_decision. Defined.

#[global] Instance CompletedProcess_eq_dec : EqDecision CompletedProcess.
Proof. solve_decision. Defined.

(** What the handler's host decides: the module's location, the
    environment, the names [tempfile] tries, the answers of the network, the
    child process (which may write or remove any file, and is an exception
    when it cannot be started), the strict decoder of the locale's
    encoding, the directories the operating system refuses to create (with
    the error it gives) and the removals it refuses, the working directory
    of the process, the bytes [zipfile] writes for given entries and the
    entries it reads from given bytes. *)
Record Host := {
  ROOT_DIR : path;
  RUNPOD_OUTPUT_DIR : option string;
  HOME : path;
  temp_names : string → list path;
  http : string → result Response;
  process : list string → path → gmap path node
            → result Child * gmap path node;
  locale_decode : bytes → result unicode;
  mkdir_refused : gmap path node → path → option exn;
  may_remove : gmap path node → path → bool;
  getcwd : path;
  zipfile : list (path * node) → bytes;
  namelist : bytes → list (path * node)
}.

Definition len {A} (l : list A) : Z := Z.of_nat (length l).

(** [base_name + ext] on the path's last part. *)
Definition add_extension (p : path) (ext : string) : path :=
  match reverse p with
  | [] => [ext]
  | n :: r => reverse r ++ [n +:+ ext]
  end.

Section Handler.

Context (host : Host).

Definition SCRIPT_PATH : path := joinpath (ROOT_DIR host) "custom_run_dpsk_ocr_pdf.py".

Definition DEFAULT_OUTPUT_DIR : path :=
  Path (default "/tmp/runpod-output" (RUNPOD_OUTPUT_DIR host)).

(** *** Library calls *)

(** [Path.mkdir(parents=True, exist_ok=True)]: the missing directories along
    the path are created from the top, and a directory that exists is no
    error.  A file in the way is an error, and so is a directory the
    operating system refuses to create (a parent that may not be written
    to, a name that is too long, a file system that is read-only); the
    directories created before the error stay. *)
Fixpoint mkdir_from (done todo : path) : M unit :=
  match todo with
  | [] => mret ()
  | part :: todo' =>
      let here := done ++ [part] in
      λ w,
        match files w !! here with
        | Some Dir => mkdir_from here todo' w
        | Some (File _) =>
            (Raise (match todo' with [] => FileExistsError
                                   | _ => NotADirectoryError end), w)
        | None =>
            match mkdir_refused host (files w) here with
            | Some e => (Raise e, w)
            | None => mkdir_from here todo' (set_files (insert here Dir) w)
            end
        end
  end.

Definition mkdir_parents (p : path) : M unit := mkdir_from [] p.

(** [requests.get(url, timeout=120)]: the call is logged, and the host
    gives the response the library ends with, after the redirects it
    followed, or the exception it raises. *)
Definition requests_get (url : string) : M Response := λ w,
  (http host url, log (HttpGet url) w).

(** [response.raise_for_status()] *)
Definition raise_for_status (r : Response) : M unit :=
  if bool_decide (400 ≤ status_code r < 600)%Z
  then raise (HTTPError (status_code r)) else mret ().

(** [tempfile.mkstemp(suffix=suffix)]: the first candidate name that is free
    is created, empty. *)
Definition mkstemp (suffix : string) : M path := λ w,
  match list_find (λ p, files w !! p = None) (temp_names host suffix) with
  | Some (_, p) => (Ok p, set_files (insert p (File [])) w)
  | None => (Raise FileExistsError, w)
  end.

(** [Path.unlink] *)
Definition unlink (p : path) : M unit := λ w,
  match files w !! p with
  | Some (File _) =>
      if may_remove host (files w) p then (Ok (), set_files (delete p) w)
      else (Raise PermissionError, w)
  | Some Dir => (Raise IsADirectoryError, w)
  | None => (Raise FileNotFoundError, w)
  end.

(** [shutil.rmtree]: the directory goes with everything below it. *)
Definition rmtree (p : path) : M unit := λ w,
  match files w !! p with
  | Some Dir =>
      if may_remove host (files w) p
      then (Ok (), set_files (filter (λ kv, ¬ p `prefix_of` kv.1)) w)
      else (Raise PermissionError, w)
  | Some (File _) => (Raise NotADirectoryError, w)
  | None => (Raise FileNotFoundError, w)
  end.

(** [Popen._translate_newlines(data, encoding, errors)] in text mode: the
    captured bytes are decoded with the locale's encoding, errors strict,
    and the line ends are made ["\n"]. *)
Definition _translate_newlines (data : bytes) : result unicode :=
  result_map (λ t, replace_cr (replace_crlf t)) (locale_decode host data).

(** [subprocess.run(command, cwd=cwd, text=True, capture_output=True,
    check=False)]: the exit code is returned, not raised.  A process that
    cannot be started is an exception, and so is captured output that does
    not decode, raised after the process has terminated. *)
Definition subprocess_run (command : list string) (cwd : path)
  : M CompletedProcess := λ w,
  let '(r, fs) := process host command cwd (files w) in
  let w' := {| files := fs; trace := trace w ++ [Spawn command] |} in
  match r with
  | Raise e => (Raise e, w')
  | Ok child =>
      (out ← lift (_translate_newlines (stdout_bytes child));
       err ← lift (_translate_newlines (stderr_bytes child));
       mret {| args := command; returncode := exit_code child;
               stdout := out; stderr := err |}) w'
  end.

(** [shutil.make_archive(base_name, "zip", root_dir)], as CPython 3.11 has
    it: the archive [base_name + ".zip"] is written with the entries found
    below [root_dir] (none if [root_dir] is not a directory), and the name
    returned is [os.path.abspath] of the archive's.  The directory of
    [base_name] needs no creation: where the handler calls this it is the
    parent of [root_dir], which exists. *)
Definition make_archive (base_name root_dir : path) : M path := λ w,
  let zip_filename := add_extension base_name ".zip" in
  match files w !! zip_filename with
  | Some Dir => (Raise IsADirectoryError, w)
  | _ =>
      (Ok (abspath (getcwd host) zip_filename),
       set_files
         (insert zip_filename
            (File (zipfile host (archive_entries root_dir (files w))))) w)
  end.

(** *** handler.py *)

Definition _download_to_file (url : string) (suffix : string) : M path :=
  response ← requests_get url;
  raise_for_status response;;
  temp_path ← mkstemp suffix;
  write_bytes temp_path (content response);;
  mret temp_path.

Definition _write_base64_file (encoded : string) (suffix : string) : M path :=
  temp_path ← mkstemp suffix;
  data ← lift (Base64.b64decode encoded);
  write_bytes temp_path data;;
  mret temp_path.

Definition _ensure_pdf_input (job_input : gmap string string)
  : M (path * list path) :=
  let cleanup_paths : list path := [] in
  match job_input !! "pdf_path" with
  | Some v =>
      let candidate := expanduser (HOME host) (Path v) in
      found ← exists_ candidate;
      if negb found then
        raise (HandlerError
                 ("Provided pdf_path does not exist: " +:+ str candidate))
      else mret (candidate, cleanup_paths)
  | None =>
  match job_input !! "pdf_url" with
  | Some url =>
      downloaded ← _download_to_file url ".pdf";
      mret (downloaded, cleanup_paths ++ [downloaded])
  | None =>
  match job_input !! "pdf_base64" with
  | Some encoded =>
      decoded ← _write_base64_file encoded ".pdf";
      mret (decoded, cleanup_paths ++ [decoded])
  | None =>
      raise (HandlerError
        "No PDF input provided. Supply one of `pdf_path`, `pdf_url`, or `pdf_base64`.")
  end end end.

(** [if prompt:] holds for a string that is not empty. *)
Definition _build_command (pdf_path output_dir : path) (prompt : option string)
  : list string :=
  let command :=
    ["python"; str SCRIPT_PATH; "--input"; str pdf_path;
     "--output"; str output_dir] in
  match prompt with
  | Some p => if bool_decide (p ≠ "") then command ++ ["--prompt"; p]
              else command
  | None => command
  end.

Definition _run_pipeline (command : list string) : M CompletedProcess :=
  subprocess_run command (ROOT_DIR host).

Definition _encode_text_file (file_path : path) : M (option unicode) :=
  found ← exists_ file_path;
  if negb found then mret None
  else
    text_bytes ← read_bytes file_path;
    if bool_decide (len text_bytes ≤ 500000)%Z then
      t ← lift (Utf8.decode text_bytes);
      mret (Some t)
    else
      t ← lift (Utf8.decode (Base64.b64encode text_bytes));
      mret (Some t).

Definition base_stem (pdf_path : path) : string :=
  let pdf_name := name pdf_path in
  if endswith (lower pdf_name) ".pdf" then drop_last 4 pdf_name
  else stem pdf_path.

Definition _collect_artifacts (pdf_path output_dir : path)
  : M (gmap string value) :=
  let artifacts : gmap string value := ∅ in
  let base_stem := base_stem pdf_path in
  let markdown_path := joinpath output_dir (base_stem +:+ ".mmd") in
  let detail_markdown_path := joinpath output_dir (base_stem +:+ "_det.mmd") in
  let layout_pdf_path := joinpath output_dir (base_stem +:+ "_layouts.pdf") in
  let images_dir := joinpath output_dir "images" in
  markdown_content ← _encode_text_file markdown_path;
  let artifacts :=
    match markdown_content with
    | Some c =>
        <["markdown_path" := VStr (str markdown_path)]>
          (<["markdown" := VText c]> artifacts)
    | None => <["markdown_missing" := VStr (str markdown_path)]> artifacts
    end in
  detection_content ← _encode_text_file detail_markdown_path;
  let artifacts :=
    match detection_content with
    | Some c =>
        <["detection_markdown_path" := VStr (str detail_markdown_path)]>
          (<["detection_markdown" := VText c]> artifacts)
    | None => artifacts
    end in
  layout_found ← exists_ layout_pdf_path;
  artifacts ←
    (if (layout_found : bool) then
       data ← read_bytes layout_pdf_path;
       t ← lift (Utf8.decode (Base64.b64encode data));
       mret (<["layout_pdf_base64" := VText t]>
               (<["layout_pdf_path" := VStr (str layout_pdf_path)]> artifacts))
     else mret artifacts);
  images_found ← exists_ images_dir;
  if (images_found : bool) then
    let archive_base := joinpath output_dir (base_stem +:+ "_images") in
    archive_path ← make_archive archive_base images_dir;
    mret (<["images_archive_path" := VStr (str archive_path)]> artifacts)
  else mret artifacts.

(** The body of the cleanup loop. *)
Definition cleanup_path (p : path) : M unit :=
  try_except_OSError
    (file ← is_file p;
     if (file : bool) then
       found ← exists_ p;
       if (found : bool) then unlink p else mret ()
     else
       dir ← is_dir p;
       if (dir : bool) then rmtree p else mret ()).

Definition handler (event : gmap string (gmap string string))
  : M (gmap string value) :=
  let job_input := default ∅ (event !! "input") in
  let prompt := job_input !! "prompt" in
  let output_dir :=
    match job_input !! "output_dir" with
    | Some d => Path d
    | None => DEFAULT_OUTPUT_DIR
    end in
  mkdir_parents output_dir;;
  '(pdf_path, cleanup_paths) ← _ensure_pdf_input job_input;
  let command := _build_command pdf_path output_dir prompt in
  process ← _run_pipeline command;
  let response : gmap string value :=
    <["stderr" := VText (strip (stderr process))]>
      (<["stdout" := VText (strip (stdout process))]>
         (<["return_code" := VInt (returncode process)]>
            (<["command" := VStr (String.concat " " command)]> ∅))) in
  response ←
    (if bool_decide (returncode process ≠ 0)%Z then
       mret (<["status" := VStr "failed"]> response)
     else
       artifacts ← _collect_artifacts pdf_path output_dir;
       mret (artifacts ∪ <["status" := VStr "succeeded"]> response));
  for_each cleanup_paths cleanup_path;;
  mret response.

End Handler.

(** ** Runs of the handler

    The names below cut [handler] at the points the properties speak of:
    the job input and the output directory of an event, the command, the
    response before the artifacts, the four artifact locations, and what
    removing a path does to the file system. *)

Section Runs.

Context (host : Host).

Definition job_input_of (event : gmap string (gmap string string))
  : gmap string string :=
  default ∅ (event !! "input").

Definition output_dir_of (job_input : gmap string string) : path :=
  match job_input !! "output_dir" with
  | Some d => Path d
  | None => DEFAULT_OUTPUT_DIR host
  end.

Definition command_of (job_input : gmap string string) (pdf_path : path)
  : list string :=
  _build_command host pdf_path (output_dir_of job_input) (job_input !! "prompt").

(** The handler created the output directory, resolved the input to
    [pdf_path] with [cleanup_paths], and [subprocess.run] returned [cp]
    (the pipeline process terminated and its output decoded), leaving the
    world [w3]. *)
Definition pipeline_ran (event : gmap string (gmap string string)) (w : World)
    (pdf_path : path) (cleanup_paths : list path) (cp : CompletedProcess)
    (w3 : World) : Prop :=
  ∃ w1 w2,
    mkdir_parents host (output_dir_of (job_input_of event)) w = (Ok (), w1)
    ∧ _ensure_pdf_input host (job_input_of event) w1
      = (Ok (pdf_path, cleanup_paths), w2)
    ∧ _run_pipeline host (command_of (job_input_of event) pdf_path) w2
      = (Ok cp, w3).

(** The response before the status and the artifacts. *)
Definition process_fields (command : list string) (cp : CompletedProcess)
  : gmap string value :=
  <["stderr" := VText (strip (stderr cp))]>
    (<["stdout" := VText (strip (stdout cp))]>
       (<["return_code" := VInt (returncode cp)]>
          (<["command" := VStr (String.concat " " command)]> ∅))).

(** The assembly of the response, between the pipeline and the cleanup. *)
Definition assemble (pdf_path output_dir : path) (command : list string)
    (cp : CompletedProcess) : M (gmap string value) :=
  if bool_decide (returncode cp ≠ 0)%Z then
    mret (<["status" := VStr "failed"]> (process_fields command cp))
  else
    artifacts ← _collect_artifacts host pdf_path output_dir;
    mret (artifacts ∪ <["status" := VStr "succeeded"]> (process_fields command cp)).

Definition markdown_path_of (pdf_path output_dir : path) : path :=
  joinpath output_dir (base_stem pdf_path +:+ ".mmd").

Definition detail_markdown_path_of (pdf_path output_dir : path) : path :=
  joinpath output_dir (base_stem pdf_path +:+ "_det.mmd").

Definition layout_pdf_path_of (pdf_path output_dir : path) : path :=
  joinpath output_dir (base_stem pdf_path +:+ "_layouts.pdf").

Definition images_dir_of (output_dir : path) : path :=
  joinpath output_dir "images".

Definition archive_path_of (pdf_path output_dir : path) : path :=
  joinpath output_dir (base_stem pdf_path +:+ "_images.zip").

(** The fields [_collect_artifacts] can set. *)
Definition artifact_keys : list string :=
  ["markdown"; "markdown_path"; "markdown_missing"; "detection_markdown";
   "detection_markdown_path"; "layout_pdf_path"; "layout_pdf_base64";
   "images_archive_path"].

(** What [_encode_text_file] returns for the node found at the path. *)
Definition encoded_text (n : option node) : result (option unicode) :=
  match n with
  | None => Ok None
  | Some Dir => Raise IsADirectoryError
  | Some (File text_bytes) =>
      if bool_decide (len text_bytes ≤ 500000)%Z
      then result_map Some (Utf8.decode text_bytes)
      else result_map Some (Utf8.decode (Base64.b64encode text_bytes))
  end.

(** What the layout branch encodes for the node found at the path. *)
Definition layout_text (n : option node) : result (option unicode) :=
  match n with
  | None => Ok None
  | Some Dir => Raise IsADirectoryError
  | Some (File data) =>
      result_map Some (Utf8.decode (Base64.b64encode data))
  end.

(** The fields set for the two markdown files and the layout document. *)
Definition text_artifacts (pdf_path output_dir : path)
    (markdown detection layout : option unicode) : gmap string value :=
  let artifacts : gmap string value :=
    match markdown with
    | Some c =>
        <["markdown_path" := VStr (str (markdown_path_of pdf_path output_dir))]>
          (<["markdown" := VText c]> ∅)
    | None =>
        <["markdown_missing" := VStr (str (markdown_path_of pdf_path output_dir))]> ∅
    end in
  let artifacts :=
    match detection with
    | Some c =>
        <["detection_markdown_path" :=
            VStr (str (detail_markdown_path_of pdf_path output_dir))]>
          (<["detection_markdown" := VText c]> artifacts)
    | None => artifacts
    end in
  match layout with
  | Some t =>
      <["layout_pdf_base64" := VText t]>
        (<["layout_pdf_path" :=
             VStr (str (layout_pdf_path_of pdf_path output_dir))]> artifacts)
  | None => artifacts
  end.

(** The archive step on the artifacts collected so far. *)
Definition archived (pdf_path output_dir : path) (w : World)
    (artifacts : gmap string value) : result (gmap string value) * World :=
  match files w !! images_dir_of output_dir with
  | None => (Ok artifacts, w)
  | Some _ =>
      match files w !! archive_path_of pdf_path output_dir with
      | Some Dir => (Raise IsADirectoryError, w)
      | _ =>
          (Ok (<["images_archive_path" :=
                   VStr (str (abspath (getcwd host)
                                (archive_path_of pdf_path output_dir)))]>
                 artifacts),
           set_files
             (insert (archive_path_of pdf_path output_dir)
                (File (zipfile host
                         (archive_entries (images_dir_of output_dir) (files w)))))
             w)
      end
  end.

(** A markdown file that [_encode_text_file] reads as text and cannot
    decode. *)
Definition undecodable (n : option node) : Prop :=
  ∃ data, n = Some (File data) ∧ (len data ≤ 500000)%Z
          ∧ Utf8.decode data = Raise UnicodeDecodeError.

(** The fields of a response. *)
Definition response_keys : list string :=
  ["command"; "return_code"; "stdout"; "stderr"; "status"] ++ artifact_keys.

(** What one round of the cleanup loop does to the file system. *)
Definition removal (p : path) (fs : gmap path node) : gmap path node :=
  match fs !! p with
  | Some (File _) => if may_remove host fs p then delete p fs else fs
  | Some Dir =>
      if may_remove host fs p then filter (λ kv, ¬ p `prefix_of` kv.1) fs
      else fs
  | None => fs
  end.

(** The whole cleanup loop. *)
Definition removals (cleanup_paths : list path) (fs : gmap path node)
  : gmap path node :=
  foldl (λ fs p, removal p fs) fs cleanup_paths.

End Runs.

(** The code points of the characters of an ASCII string. *)
Definition code_points (s : string) : unicode :=
  Byte.to_N <$> String.list_byte_of_string s.

(** A sibling of a directory: a path with the same parent. *)
Definition alongside (p dir : path) : Prop :=
  ∃ parent n m, dir = parent ++ [n] ∧ p = parent ++ [m].

(** ** A host and jobs to run the handler on *)

Module Example.

Definition ascii_bytes (s : string) : bytes := String.list_byte_of_string s.

Definition output_dir : path := ["/"; "tmp"; "runpod-output"].
Definition temp_pdf : path := ["/"; "tmp"; "tmpk3v9x_1a.pdf"].
Definition stored_pdf : path := ["/"; "data"; "report.pdf"].

Definition exits (code : Z) (out err : string)
    (writes : gmap path node → gmap path node)
  : list string → path → gmap path node → result Child * gmap path node :=
  λ command cwd fs,
    (Ok {| exit_code := code; stdout_bytes := ascii_bytes out;
           stderr_bytes := ascii_bytes err |},
     writes fs).

(** The pipeline wrote the markdown of [stem], and images in a
    sub-directory. *)
Definition writes_all (stem : string) (fs : gmap path node) : gmap path node :=
  <[output_dir ++ ["images"; "page0"; "0.jpg"] := File (ascii_bytes "JFIF")]>
    (<[output_dir ++ ["images"; "page0"] := Dir]>
       (<[output_dir ++ ["images"] := Dir]>
          (<[output_dir ++ [stem +:+ ".mmd"] := File (ascii_bytes "# Title")]>
             fs))).

(** The pipeline wrote markdown that is not UTF-8. *)
Definition writes_latin1 (stem : string) (fs : gmap path node) : gmap path node :=
  <[output_dir ++ [stem +:+ ".mmd"] := File [Byte.x63; Byte.x61; Byte.x66; Byte.xe9]]> fs.

(** The archives of the example host: the signature, then the entries in
    a serialisation that can be read back. *)
#[export] Instance byte_countable : Countable Byte.byte :=
  inj_countable Byte.to_N Byte.of_N Byte.of_to_N.

#[export] Instance node_countable : Countable node.
Proof.
  refine (inj_countable' (λ n, match n with File d => Some d | Dir => None end)
            (λ o, match o with Some d => File d | None => Dir end) _).
  by intros [].
Defined.

Fixpoint bits_of_positive (p : positive) : bytes :=
  match p with
  | xH => []
  | xO p' => Byte.x00 :: bits_of_positive p'
  | xI p' => Byte.x01 :: bits_of_positive p'
  end.

Fixpoint positive_of_bits (data : bytes) : positive :=
  match data with
  | [] => xH
  | b :: data' =>
      if Byte.eqb b Byte.x00 then xO (positive_of_bits data')
      else xI (positive_of_bits data')
  end.

Definition zip_of (entries : list (path * node)) : bytes :=
  ascii_bytes "PK" ++ bits_of_positive (encode entries).

Definition entries_of (data : bytes) : list (path * node) :=
  default [] (decode (positive_of_bits (drop 2 data))).

Definition host
    (pipeline : list string → path → gmap path node
                → result Child * gmap path node)
    (removable : bool) : Host :=
  {| ROOT_DIR := ["/"; "app"];
     RUNPOD_OUTPUT_DIR := None;
     HOME := ["/"; "root"];
     temp_names := λ suffix, [["/"; "tmp"; "tmpk3v9x_1a" +:+ suffix];
                               ["/"; "tmp"; "tmpw0_ru2fz" +:+ suffix]];
     http := λ url, Ok {| status_code := 200; content := ascii_bytes "%PDF-1.7" |};
     process := pipeline;
     locale_decode := Utf8.decode;
     mkdir_refused := λ _ _, None;
     may_remove := λ _ _, removable;
     getcwd := ["/"; "app"];
     zipfile := zip_of;
     namelist := entries_of |}.

Definition w0 : World :=
  {| files := <[stored_pdf := File (ascii_bytes "%PDF-1.4")]>
                (<[["/"; "data"] := Dir]>
                   (<[["/"; "tmp"] := Dir]> {[ ["/"] := Dir ]}));
     trace := [] |}.

Definition job (key v : string) : gmap string (gmap string string) :=
  {[ "input" := {[ key := v ]} ]}.

(** [base64.b64encode(b"%PDF-1.7")] *)
Definition payload : string := "JVBERi0xLjc=".

(** The pipeline succeeds on the temporary file of a [pdf_url] or
    [pdf_base64] job, and the temporary file can be removed. *)
Definition host_ok : Host :=
  host (exits 0 " 1 page
" "" (writes_all "tmpk3v9x_1a")) true.

(** The same, on a host where the temporary file cannot be removed. *)
Definition host_denied : Host :=
  host (exits 0 " 1 page
" "" (writes_all "tmpk3v9x_1a")) false.

(** The pipeline fails. *)
Definition host_failed : Host :=
  host (exits 1 "" "RuntimeError: CUDA out of memory
" (λ fs, fs)) true.

(** The pipeline succeeds and writes nothing. *)
Definition host_quiet : Host := host (exits 0 "" "" (λ fs, fs)) true.

(** The pipeline succeeds and writes markdown that is not UTF-8. *)
Definition host_latin1 : Host :=
  host (exits 0 "" "" (writes_latin1 "tmpk3v9x_1a")) true.

(** The pipeline succeeds on the stored document. *)
Definition host_stored : Host :=
  host (exits 0 "" "" (writes_all "report")) true.

(** The world in which the pipeline starts, and the world it leaves, for a
    job of one key. *)
Definition resolved (h : Host) (key v : string) : World :=
  (_ensure_pdf_input h {[ key := v ]} (mkdir_parents h output_dir w0).2).2.

(** The response of a call that returned. *)
Definition response_of (r : result (gmap string value) * World)
  : gmap string value :=
  match r.1 with Ok response => response | Raise _ => ∅ end.

Definition piped (h : Host) (key v : string) : World :=
  (_run_pipeline h (command_of h {[ key := v ]} (match key with
                                                 | "pdf_path" => stored_pdf
                                                 | _ => temp_pdf
                                                 end))
     (resolved h key v)).2.

(** A host whose server answers 404. *)
Definition host_404 : Host :=
  {| ROOT_DIR := ROOT_DIR host_quiet;
     RUNPOD_OUTPUT_DIR := RUNPOD_OUTPUT_DIR host_quiet;
     HOME := HOME host_quiet;
     temp_names := temp_names host_quiet;
     http := λ url, Ok {| status_code := 404; content := ascii_bytes "Not Found" |};
     process := process host_quiet;
     locale_decode := locale_decode host_quiet;
     mkdir_refused := mkdir_refused host_quiet;
     may_remove := may_remove host_quiet;
     getcwd := getcwd host_quiet;
     zipfile := zipfile host_quiet;
     namelist := namelist host_quiet |}.

(** A host on which the interpreter cannot be started. *)
Definition host_no_python : Host :=
  host (λ command cwd fs, (Raise FileNotFoundError, fs)) true.

(** The pipeline succeeds and writes markdown and a layout document for the
    temporary file. *)
Definition writes_layout (stem : string) (fs : gmap path node) : gmap path node :=
  <[output_dir ++ [stem +:+ "_layouts.pdf"] := File (ascii_bytes "%PDF-1.5")]>
    (<[output_dir ++ [stem +:+ ".mmd"] := File (ascii_bytes "# Title")]> fs).

Definition host_layout : Host :=
  host (exits 0 "" "" (writes_layout "tmpk3v9x_1a")) true.

(** The pipeline fails and writes a message in Latin-1 to its standard
    error. *)
Definition host_garbled : Host :=
  host (λ command cwd fs,
          (Ok {| exit_code := 1; stdout_bytes := [];
                 stderr_bytes := ascii_bytes "Erreur: m" ++ [Byte.xe9]
                                 ++ ascii_bytes "moire insuffisante" |}, fs))
       true.

(** A host on which no directory can be created. *)
Definition host_readonly : Host :=
  {| ROOT_DIR := ROOT_DIR host_quiet;
     RUNPOD_OUTPUT_DIR := RUNPOD_OUTPUT_DIR host_quiet;
     HOME := HOME host_quiet;
     temp_names := temp_names host_quiet;
     http := http host_quiet;
     process := process host_quiet;
     locale_decode := locale_decode host_quiet;
     mkdir_refused := λ fs p, Some PermissionError;
     may_remove := may_remove host_quiet;
     getcwd := getcwd host_quiet;
     zipfile := zipfile host_quiet;
     namelist := namelist host_quiet |}.

(** The pipeline succeeds and prints the UTF-8 bytes of a line that starts
    with a no-break space and ends with a carriage return and a line
    feed. *)
Definition host_nbsp : Host :=
  host (λ command cwd fs,
          (Ok {| exit_code := 0;
                 stdout_bytes := [Byte.xc2; Byte.xa0] ++ ascii_bytes "1 page"
                                 ++ [Byte.x0d; Byte.x0a];
                 stderr_bytes := [] |}, fs)) true.

End Example.

(** * Properties *)

(** ** Bytes and results *)

Lemma byte_of_to_N (b : Byte.byte) : Base64.byte_of_N (Byte.to_N b) = b.
Proof.
  unfold Base64.byte_of_N. pose proof (Byte.to_N_bounded b).
  rewrite N.mod_small by lia. by rewrite Byte.of_to_N.
Qed.

Lemma byte_of_N_eq (n : N) (b : Byte.byte) :
  n = Byte.to_N b → Base64.byte_of_N n = b.
Proof. intros ->. apply byte_of_to_N. Qed.

Lemma result_map_Ok {A B} (f : A → B) (r : result A) (y : B) :
  result_map f r = Ok y → ∃ x, r = Ok x ∧ y = f x.
Proof. destruct r; simpl; intros; simplify_eq; eauto. Qed.

(** ** The UTF-8 codec: what decodes, encodes back to the same bytes *)

Module Utf8Facts.
Import Utf8.
Local Open Scope N_scope.

Lemma continuation_range b : continuation b = true → 0x80 ≤ Byte.to_N b < 0xC0.
Proof. unfold continuation. intros [??%N.ltb_lt]%andb_true_iff. split; [by apply N.leb_le | done]. Qed.

Lemma encode_cons cp t b bs :
  encode_char cp = Ok b → encode t = Ok bs → encode (cp :: t) = Ok (b ++ bs).
Proof. intros H1 H2. simpl. by rewrite H1, H2. Qed.


Ltac ranges :=
  repeat match goal with
  | H : _ && _ = true |- _ => apply andb_true_iff in H; destruct H
  | H : continuation _ = true |- _ => apply continuation_range in H
  | H : negb _ = true |- _ => apply negb_true_iff in H
  | H : (_ <=? _) = true |- _ => apply N.leb_le in H
  | H : (_ <? _) = true |- _ => apply N.ltb_lt in H
  end.

Ltac tests :=
  repeat match goal with
  | |- context [?a <? ?b] => destruct (N.ltb_spec a b); try lia
  | |- context [?a <=? ?b] => destruct (N.leb_spec a b); try lia
  end.

Lemma surrogate_false cp : surrogate cp = false → cp < 0xD800 ∨ 0xE000 ≤ cp.
Proof.
  unfold surrogate. intros [H|H]%andb_false_iff.
  - left. by apply N.leb_gt.
  - right. by apply N.ltb_ge.
Qed.

Lemma decode_encode_below (n : nat) :
  ∀ bs t, (length bs < n)%nat → decode bs = Ok t → encode t = Ok bs.
Proof.
  induction n as [|n IH]; [lia|].
  intros [|b0 r0] t Hlen; cbn [decode].
  { by intros [= <-]. }
  pose proof (Byte.to_N_bounded b0) as Hb0.
  destruct (N.ltb_spec (Byte.to_N b0) 0x80).
  { intros (t' & Ht' & ->)%result_map_Ok.
    apply (encode_cons _ _ [b0]); [|apply IH; [simpl in Hlen; lia|done]].
    unfold encode_char. tests. do 2 f_equal. apply byte_of_to_N. }
  destruct (N.ltb_spec (Byte.to_N b0) 0xC2); [done|].
  destruct (N.ltb_spec (Byte.to_N b0) 0xE0).
  { destruct r0 as [|b1 r1]; [done|].
    destruct (continuation b1) eqn:Hc1; [|done].
    intros (t' & Ht' & ->)%result_map_Ok. ranges.
    apply (encode_cons _ _ [b0; b1]); [|apply IH; [simpl in Hlen; lia|done]].
    unfold encode_char. tests. do 2 f_equal; [|f_equal]; apply byte_of_N_eq; lia. }
  destruct (N.ltb_spec (Byte.to_N b0) 0xF0).
  { destruct r0 as [|b1 [|b2 r2]]; [done..|].
    match goal with |- context [if ?c then _ else _] => destruct c eqn:Hc end; [|done].
    intros (t' & Ht' & ->)%result_map_Ok. ranges.
    match goal with H : surrogate _ = false |- _ => pose proof (surrogate_false _ H) as Hs end.
    apply (encode_cons _ _ [b0; b1; b2]); [|apply IH; [simpl in Hlen; lia|done]].
    unfold encode_char. tests.
    match goal with H : surrogate _ = false |- _ => rewrite H end.
    do 2 f_equal; [|f_equal; [|f_equal]]; apply byte_of_N_eq; lia. }
  destruct (N.ltb_spec (Byte.to_N b0) 0xF5); [|done].
  destruct r0 as [|b1 [|b2 [|b3 r3]]]; [done..|].
  match goal with |- context [if ?c then _ else _] => destruct c eqn:Hc end; [|done].
  intros (t' & Ht' & ->)%result_map_Ok. ranges.
  apply (encode_cons _ _ [b0; b1; b2; b3]); [|apply IH; [simpl in Hlen; lia|done]].
  unfold encode_char. tests.
  do 2 f_equal; [|f_equal; [|f_equal; [|f_equal]]]; apply byte_of_N_eq; lia.
Qed.

Lemma decode_encode (bs : bytes) (t : unicode) :
  decode bs = Ok t → encode t = Ok bs.
Proof. apply (decode_encode_below (S (length bs))). lia. Qed.

Lemma decode_ascii (bs : bytes) :
  forallb Base64.is_ascii bs = true → decode bs = Ok (Byte.to_N <$> bs).
Proof.
  induction bs as [|b0 bs IH]; [done|].
  intros [Hb Hbs]%andb_true_iff. cbn [decode].
  unfold Base64.is_ascii in Hb. rewrite Hb, (IH Hbs). done.
Qed.
End Utf8Facts.

(** ** The base64 codec: the decoder inverts the encoder *)

Module Base64Facts.
Import Base64.
Local Open Scope N_scope.

Lemma b2a_table (v : N) :
  v < 64 →
  a2b (b2a v) = Some v ∧ Byte.eqb (b2a v) BASE64_PAD = false
  ∧ is_ascii (b2a v) = true.
Proof.
  intros Hv. destruct v as [|p]; [by vm_compute|].
  do 7 (try destruct p as [p|p|]); try lia; by vm_compute.
Qed.

Lemma a2b_b2a v : v < 64 → a2b (b2a v) = Some v.
Proof. intros. by apply b2a_table. Qed.

Lemma b2a_not_pad v : v < 64 → Byte.eqb (b2a v) BASE64_PAD = false.
Proof. intros. by apply b2a_table. Qed.

Lemma b2a_ascii v : v < 64 → is_ascii (b2a v) = true.
Proof. intros. by apply b2a_table. Qed.

Lemma b2a_in_alphabet v : v < 64 → in_alphabet (b2a v) = true.
Proof. intros. unfold in_alphabet. by rewrite a2b_b2a. Qed.

Lemma triple_ind (P : bytes → Prop) :
  P [] → (∀ b0, P [b0]) → (∀ b0 b1, P [b0; b1]) →
  (∀ b0 b1 b2 rest, P rest → P (b0 :: b1 :: b2 :: rest)) →
  ∀ bs, P bs.
Proof.
  intros H0 H1 H2 H3.
  assert (∀ n bs, (length bs < n)%nat → P bs) as Hn.
  { induction n as [|n IH]; [lia|].
    intros [|b0 [|b1 [|b2 rest]]] Hlen; auto.
    apply H3, IH. simpl in Hlen. lia. }
  intros bs. apply (Hn (S (length bs))). lia.
Qed.

(** One character of the alphabet, read in each position of a quad. *)
Lemma a2b_loop_char v data quad_pos leftchar pads :
  v < 64 →
  a2b_loop (b2a v :: data) quad_pos leftchar pads =
    match quad_pos with
    | 0%nat => a2b_loop data 1 v 0
    | 1%nat => result_map (cons (byte_of_N (leftchar * 4 + v / 16)))
                 (a2b_loop data 2 (v mod 16) 0)
    | 2%nat => result_map (cons (byte_of_N (leftchar * 16 + v / 4)))
                 (a2b_loop data 3 (v mod 4) 0)
    | _ => result_map (cons (byte_of_N (leftchar * 64 + v)))
             (a2b_loop data 0 0 0)
    end.
Proof. intros Hv. cbn [a2b_loop]. by rewrite b2a_not_pad, a2b_b2a. Qed.

Lemma a2b_base64_b64encode (bs : bytes) : a2b_base64 (b64encode bs) = Ok bs.
Proof.
  unfold a2b_base64. induction bs as [|b0|b0 b1|b0 b1 b2 rest IH] using triple_ind.
  - done.
  - pose proof (Byte.to_N_bounded b0). cbn [b64encode].
    rewrite !a2b_loop_char by lia. cbn.
    do 2 f_equal. apply byte_of_N_eq. lia.
  - pose proof (Byte.to_N_bounded b0). pose proof (Byte.to_N_bounded b1).
    cbn [b64encode]. rewrite !a2b_loop_char by lia. cbn.
    do 2 f_equal; [|f_equal]; apply byte_of_N_eq; lia.
  - pose proof (Byte.to_N_bounded b0). pose proof (Byte.to_N_bounded b1).
    pose proof (Byte.to_N_bounded b2).
    cbn [b64encode]. rewrite !a2b_loop_char by lia. rewrite IH. cbn.
    do 2 f_equal; [|f_equal; [|f_equal]]; apply byte_of_N_eq; lia.
Qed.

Lemma b64encode_ascii (bs : bytes) : forallb is_ascii (b64encode bs) = true.
Proof.
  induction bs as [|b0|b0 b1|b0 b1 b2 rest IH] using triple_ind;
    [done|..];
    pose proof (Byte.to_N_bounded b0);
    [|pose proof (Byte.to_N_bounded b1)
     |pose proof (Byte.to_N_bounded b1); pose proof (Byte.to_N_bounded b2)];
    cbn [b64encode forallb]; rewrite ?IH, !b2a_ascii by lia; done.
Qed.

Lemma b64encode_canonical (bs : bytes) : canonical (b64encode bs) = true.
Proof.
  induction bs as [|b0|b0 b1|b0 b1 b2 rest IH] using triple_ind;
    [done|..];
    pose proof (Byte.to_N_bounded b0);
    [|pose proof (Byte.to_N_bounded b1)
     |pose proof (Byte.to_N_bounded b1); pose proof (Byte.to_N_bounded b2)];
    cbn [b64encode canonical].
  - rewrite !b2a_in_alphabet by lia. done.
  - rewrite !b2a_in_alphabet by lia. done.
  - destruct (b64encode rest) eqn:E; rewrite !b2a_in_alphabet by lia; [done|].
    by rewrite IH.
Qed.

Lemma b64decode_b64encode (bs : bytes) :
  b64decode (String.string_of_list_byte (b64encode bs)) = Ok bs.
Proof.
  unfold b64decode. rewrite String.list_byte_of_string_of_list_byte.
  by rewrite b64encode_ascii, a2b_base64_b64encode.
Qed.

End Base64Facts.

(** ** The monad *)

Lemma bind_Ok {A B} (m : M A) (f : A → M B) (w w' : World) (a : A) :
  m w = (Ok a, w') → (m ≫= f) w = f a w'.
Proof. intros H. unfold mbind, M_bind. by rewrite H. Qed.

Lemma bind_Raise {A B} (m : M A) (f : A → M B) (w w' : World) (e : exn) :
  m w = (Raise e, w') → (m ≫= f) w = (Raise e, w').
Proof. intros H. unfold mbind, M_bind. by rewrite H. Qed.

Lemma bind_inv_Ok {A B} (m : M A) (f : A → M B) (w w'' : World) (b : B) :
  (m ≫= f) w = (Ok b, w'') →
  ∃ a w', m w = (Ok a, w') ∧ f a w' = (Ok b, w'').
Proof.
  unfold mbind, M_bind. destruct (m w) as [[a|e] w'] eqn:E; [eauto|done].
Qed.

(** ** File-system calls and the cleanup loop *)

Section FileSystem.

Context (host : Host).

Lemma encode_text_file_eq (p : path) (w : World) :
  _encode_text_file p w = (encoded_text (files w !! p), w).
Proof.
  unfold _encode_text_file, exists_, read_bytes, mbind, M_bind, mret, M_ret, lift.
  destruct (files w !! p) as [[data|]|] eqn:E; simpl; rewrite ?E; simpl;
    [|done..].
  case_bool_decide; [destruct (Utf8.decode data)
                    |destruct (Utf8.decode (Base64.b64encode data))]; done.
Qed.

Lemma mkdir_from_keeps (todo done : path) (w w' : World) (r : result unit) :
  mkdir_from host done todo w = (r, w') →
  trace w' = trace w
  ∧ ∀ q n, files w !! q = Some n → files w' !! q = Some n.
Proof.
  revert done w. induction todo as [|part todo IH]; intros done w; simpl.
  { intros [= <- <-]. done. }
  destruct (files w !! (done ++ [part])) as [[data|]|] eqn:E.
  - intros [= <- <-]. done.
  - apply IH.
  - destruct (mkdir_refused host (files w) (done ++ [part])) as [e|].
    { intros [= <- <-]. done. }
    intros [Ht Hf]%IH. split; [done|].
    intros q n Hq. apply Hf. simpl.
    rewrite lookup_insert_ne; [done|]. intros <-. congruence.
Qed.

Lemma cleanup_path_eq (p : path) (w : World) :
  cleanup_path host p w = (Ok (), set_files (removal host p) w).
Proof.
  unfold cleanup_path, try_except_OSError, is_file, is_dir, exists_, unlink,
    rmtree, removal, mbind, M_bind, mret, M_ret.
  destruct w as [fs tr]. unfold set_files. simpl.
  destruct (fs !! p) as [[data|]|] eqn:E;
    destruct (may_remove host fs p) eqn:Hm;
    repeat (progress (simpl; rewrite ?E, ?Hm)); done.
Qed.

Lemma cleanup_loop_eq (cleanup_paths : list path) (w : World) :
  for_each cleanup_paths (cleanup_path host) w
  = (Ok (), set_files (removals host cleanup_paths) w).
Proof.
  revert w. induction cleanup_paths as [|p l IH]; intros w.
  { destruct w. done. }
  simpl. erewrite bind_Ok by apply cleanup_path_eq. rewrite IH.
  destruct w. done.
Qed.

Lemma removal_absent (p q : path) (fs : gmap path node) :
  fs !! q = None → removal host p fs !! q = None.
Proof.
  intros Hq. unfold removal.
  destruct (fs !! p) as [[data|]|]; [| |done];
    destruct (may_remove host fs p); try done.
  - destruct (decide (p = q)) as [->|]; [apply lookup_delete_eq|].
    by rewrite lookup_delete_ne.
  - apply map_lookup_filter_None. by left.
Qed.

Lemma removal_removes (p : path) (fs : gmap path node) :
  may_remove host fs p = true → removal host p fs !! p = None.
Proof.
  intros Hp. unfold removal.
  destruct (fs !! p) as [[data|]|] eqn:E; rewrite ?Hp; [| |done].
  - apply lookup_delete_eq.
  - apply map_lookup_filter_None. right. intros n _ Hn. by apply Hn.
Qed.

Lemma removals_absent (cleanup_paths : list path) (q : path) (fs : gmap path node) :
  fs !! q = None → removals host cleanup_paths fs !! q = None.
Proof.
  revert fs. induction cleanup_paths as [|p l IH]; intros fs Hq; [done|].
  simpl. apply IH. by apply removal_absent.
Qed.

Lemma removals_removes (cleanup_paths : list path) (p : path) (fs : gmap path node) :
  p ∈ cleanup_paths → (∀ fs', may_remove host fs' p = true) →
  removals host cleanup_paths fs !! p = None.
Proof.
  intros Hin Hp. revert fs.
  induction cleanup_paths as [|q l IH]; intros fs; [by apply elem_of_nil in Hin|].
  simpl. apply elem_of_cons in Hin as [->|Hin].
  - apply removals_absent. by apply removal_removes.
  - by apply IH.
Qed.

Lemma handler_run (event : gmap string (gmap string string)) (w w3 : World)
    (pdf_path : path) (cleanup_paths : list path) (cp : CompletedProcess) :
  pipeline_ran host event w pdf_path cleanup_paths cp w3 →
  handler host event w
  = (response ← assemble host pdf_path (output_dir_of host (job_input_of event))
                  (command_of host (job_input_of event) pdf_path) cp;
     for_each cleanup_paths (cleanup_path host);;
     mret response) w3.
Proof.
  intros (w1 & w2 & Hmk & Hres & Hrun). unfold handler.
  fold (job_input_of event). fold (output_dir_of host (job_input_of event)).
  etransitivity; [by apply bind_Ok|].
  etransitivity; [by apply bind_Ok|]. cbn beta iota.
  fold (command_of host (job_input_of event) pdf_path).
  etransitivity; [by apply bind_Ok|]. done.
Qed.

End FileSystem.

(** ** Artifact collection *)

Lemma bind_read {A B} (m : M A) (f : A → M B) (w : World) (r : result A) :
  m w = (r, w) →
  (m ≫= f) w = match r with Ok a => f a w | Raise e => (Raise e, w) end.
Proof. intros H. unfold mbind, M_bind. rewrite H. by destruct r. Qed.

Lemma add_extension_joinpath (dir : path) (n ext : string) :
  add_extension (joinpath dir n) ext = joinpath dir (n +:+ ext).
Proof.
  unfold add_extension, joinpath. rewrite reverse_snoc. simpl.
  by rewrite reverse_involutive.
Qed.

Lemma string_app_assoc (a b c : string) : (a +:+ b) +:+ c = a +:+ (b +:+ c).
Proof.
  induction a as [|x a IH]; [done|].
  change (String x ((a +:+ b) +:+ c) = String x (a +:+ (b +:+ c))).
  by f_equal.
Qed.

Section Collection.

Context (host : Host).

Lemma collect_artifacts_eq (pdf_path output_dir : path) (w : World) :
  _collect_artifacts host pdf_path output_dir w =
  match encoded_text (files w !! markdown_path_of pdf_path output_dir) with
  | Raise e => (Raise e, w)
  | Ok markdown =>
  match encoded_text (files w !! detail_markdown_path_of pdf_path output_dir) with
  | Raise e => (Raise e, w)
  | Ok detection =>
  match layout_text (files w !! layout_pdf_path_of pdf_path output_dir) with
  | Raise e => (Raise e, w)
  | Ok layout =>
      archived host pdf_path output_dir w
        (text_artifacts pdf_path output_dir markdown detection layout)
  end end end.
Proof.
  unfold _collect_artifacts.
  fold (markdown_path_of pdf_path output_dir).
  fold (detail_markdown_path_of pdf_path output_dir).
  fold (layout_pdf_path_of pdf_path output_dir).
  fold (images_dir_of output_dir).
  rewrite (bind_read _ _ _ _ (encode_text_file_eq _ w)).
  destruct (encoded_text (files w !! markdown_path_of _ _)) as [markdown|e];
    [|done].
  rewrite (bind_read _ _ _ _ (encode_text_file_eq _ w)).
  destruct (encoded_text (files w !! detail_markdown_path_of _ _))
    as [detection|e]; [|done].
  unfold layout_text, archived, archive_path_of, exists_, read_bytes,
    make_archive, lift, mbind, M_bind, mret, M_ret.
  rewrite add_extension_joinpath, string_app_assoc. simpl.
  destruct (files w !! layout_pdf_path_of _ _) as [[data|]|] eqn:El; simpl;
    rewrite ?El; [destruct (Utf8.decode _) as [t|e]; simpl; [|done]|done|];
    (destruct (files w !! images_dir_of _) as [[d|]|] eqn:Ei; simpl;
     rewrite ?Ei; [| |done]);
    by destruct (files w !! joinpath _ _) as [[d'|]|].
Qed.

End Collection.

(** ** The command line *)

(** C6: the command starts with the interpreter and the script, then
    [--input] with the resolved path and [--output] with the output
    directory; [--prompt] follows exactly when a prompt that is not empty
    was supplied, and then with that prompt. *)
Theorem build_command_shape (host : Host) (pdf_path output_dir : path)
    (prompt : option string) :
  take 6 (_build_command host pdf_path output_dir prompt)
  = ["python"; str (SCRIPT_PATH host); "--input"; str pdf_path;
     "--output"; str output_dir]
  ∧ ("--prompt" ∈ drop 6 (_build_command host pdf_path output_dir prompt)
     ↔ ∃ p, prompt = Some p ∧ p ≠ "")
  ∧ ∀ p, prompt = Some p → p ≠ "" →
      drop 6 (_build_command host pdf_path output_dir prompt) = ["--prompt"; p].
Proof.
  unfold _build_command. destruct prompt as [p|]; [case_bool_decide|]; simpl.
  - split_and!; [done| |by intros ? [= <-]].
    split; [eauto|]. intros _. apply elem_of_cons. by left.
  - split_and!; [done| |by intros ? [= <-]].
    split; [by intros ?%elem_of_nil|]. intros (q & [= <-] & Hq). tauto.
  - split_and!; [done| |done].
    split; [by intros ?%elem_of_nil|]. by intros (q & ? & _).
Qed.

(** ** Input resolution *)

Section Resolution.

Context (host : Host).

Lemma mkstemp_trace (suffix : string) (w w' : World) (r : result path) :
  mkstemp host suffix w = (r, w') → trace w' = trace w.
Proof.
  unfold mkstemp. destruct (list_find _ _) as [[i p]|]; by intros [= <- <-].
Qed.

Lemma download_trace (url suffix : string) (w : World) :
  trace (_download_to_file host url suffix w).2 = trace w ++ [HttpGet url].
Proof.
  unfold _download_to_file, requests_get, raise_for_status, write_bytes,
    mbind, M_bind, mret, M_ret, raise.
  destruct (http host url) as [response|e]; simpl; [|done].
  case_bool_decide; simpl; [done|].
  destruct (mkstemp host suffix (log (HttpGet url) w)) as [[p|e] w'] eqn:E;
    apply mkstemp_trace in E; simpl; by rewrite E.
Qed.

Lemma write_base64_trace (encoded suffix : string) (w : World) :
  trace (_write_base64_file host encoded suffix w).2 = trace w.
Proof.
  unfold _write_base64_file, write_bytes, lift, mbind, M_bind, mret, M_ret.
  destruct (mkstemp host suffix w) as [[p|e] w'] eqn:E;
    apply mkstemp_trace in E; simpl; [|done].
  by destruct (Base64.b64decode encoded).
Qed.

(** C2: the keys are looked up in the order [pdf_path], [pdf_url],
    [pdf_base64] and the first one present decides alone: the outcome is the
    one of the job that has only this key.  With [pdf_path] the world is
    left as it is; with [pdf_url] one request is sent; with [pdf_base64]
    none; without any of the three keys a [HandlerError] is raised in an
    unchanged world. *)
Theorem input_priority (job_input : gmap string string) (w : World) :
  (∀ v, job_input !! "pdf_path" = Some v →
     _ensure_pdf_input host job_input w
     = _ensure_pdf_input host {["pdf_path" := v]} w
     ∧ (_ensure_pdf_input host job_input w).2 = w)
  ∧ (∀ url, job_input !! "pdf_path" = None → job_input !! "pdf_url" = Some url →
     _ensure_pdf_input host job_input w
     = _ensure_pdf_input host {["pdf_url" := url]} w
     ∧ trace (_ensure_pdf_input host job_input w).2 = trace w ++ [HttpGet url])
  ∧ (∀ encoded, job_input !! "pdf_path" = None → job_input !! "pdf_url" = None →
     job_input !! "pdf_base64" = Some encoded →
     _ensure_pdf_input host job_input w
     = _ensure_pdf_input host {["pdf_base64" := encoded]} w
     ∧ trace (_ensure_pdf_input host job_input w).2 = trace w)
  ∧ (job_input !! "pdf_path" = None → job_input !! "pdf_url" = None →
     job_input !! "pdf_base64" = None →
     _ensure_pdf_input host job_input w
     = (Raise (HandlerError
          "No PDF input provided. Supply one of `pdf_path`, `pdf_url`, or `pdf_base64`."),
        w)).
Proof.
  unfold _ensure_pdf_input. split_and!.
  - intros v ->. rewrite lookup_singleton_eq. split; [done|].
    unfold exists_, mbind, M_bind, mret, M_ret, raise.
    by case_bool_decide.
  - intros url -> ->. rewrite lookup_singleton_ne, lookup_singleton_eq by done.
    split; [done|].
    pose proof (download_trace url ".pdf" w) as Ht.
    unfold mbind, M_bind, mret, M_ret.
    by destruct (_download_to_file host url ".pdf" w) as [[p|e] w'].
  - intros encoded -> -> ->.
    rewrite !lookup_singleton_ne, lookup_singleton_eq by done.
    split; [done|].
    pose proof (write_base64_trace encoded ".pdf" w) as Ht.
    unfold mbind, M_bind, mret, M_ret.
    by destruct (_write_base64_file host encoded ".pdf" w) as [[p|e] w'].
  - by intros -> -> ->.
Qed.

End Resolution.

(** ** The encoding of a markdown file *)

Lemma code_points_bytes (l : bytes) :
  code_points (String.string_of_list_byte l) = Byte.to_N <$> l.
Proof. unfold code_points. by rewrite String.list_byte_of_string_of_list_byte. Qed.


(** ** The response *)

Ltac lookup_fields :=
  repeat first
    [ rewrite lookup_insert_eq
    | rewrite lookup_insert_ne by done
    | rewrite lookup_empty ].

Ltac not_an_artifact H :=
  unfold artifact_keys in H;
  repeat (apply elem_of_cons in H as [H|H]; [done|]);
  by apply elem_of_nil in H.

Section Response.

Context (host : Host).

Lemma handler_assembled (event : gmap string (gmap string string)) (w w3 w4 : World)
    (pdf_path : path) (cleanup_paths : list path) (cp : CompletedProcess)
    (response : gmap string value) :
  pipeline_ran host event w pdf_path cleanup_paths cp w3 →
  assemble host pdf_path (output_dir_of host (job_input_of event))
    (command_of host (job_input_of event) pdf_path) cp w3 = (Ok response, w4) →
  handler host event w
  = (Ok response, set_files (removals host cleanup_paths) w4).
Proof.
  intros Hrun Hasm. rewrite (handler_run _ _ _ _ _ _ _ Hrun).
  etransitivity; [by apply bind_Ok|].
  etransitivity; [apply bind_Ok, cleanup_loop_eq|]. done.
Qed.

Lemma handler_not_assembled (event : gmap string (gmap string string)) (w w3 w4 : World)
    (pdf_path : path) (cleanup_paths : list path) (cp : CompletedProcess)
    (e : exn) :
  pipeline_ran host event w pdf_path cleanup_paths cp w3 →
  assemble host pdf_path (output_dir_of host (job_input_of event))
    (command_of host (job_input_of event) pdf_path) cp w3 = (Raise e, w4) →
  handler host event w = (Raise e, w4).
Proof.
  intros Hrun Hasm. rewrite (handler_run _ _ _ _ _ _ _ Hrun).
  by apply bind_Raise.
Qed.

Lemma text_artifacts_keys (pdf_path output_dir : path)
    (markdown detection layout : option unicode) (k : string) :
  is_Some (text_artifacts pdf_path output_dir markdown detection layout !! k) →
  k ∈ artifact_keys.
Proof.
  unfold text_artifacts, artifact_keys.
  destruct markdown, detection, layout;
    repeat (intros [<-|H]%lookup_insert_is_Some'; [set_solver|revert H]);
    rewrite lookup_empty; by intros ?%is_Some_None.
Qed.

Lemma collect_artifacts_keys (pdf_path output_dir : path) (w w' : World)
    (artifacts : gmap string value) (k : string) :
  _collect_artifacts host pdf_path output_dir w = (Ok artifacts, w') →
  is_Some (artifacts !! k) → k ∈ artifact_keys.
Proof.
  rewrite collect_artifacts_eq.
  destruct (encoded_text _) as [markdown|]; [|done].
  destruct (encoded_text _) as [detection|]; [|done].
  destruct (layout_text _) as [layout|]; [|done].
  unfold archived.
  destruct (files w !! images_dir_of _) as [n|].
  - destruct (files w !! archive_path_of _ _) as [[d|]|]; [|done|];
      intros [= <- <-];
      (intros [<-|H]%lookup_insert_is_Some'; [set_solver|]);
      by eapply text_artifacts_keys.
  - intros [= <- <-]. apply text_artifacts_keys.
Qed.

(** X18: once [subprocess.run] has returned the completed process (the
    process terminated and its captured output decoded), a code that is
    not zero is never raised: the handler returns a response with status
    [failed], the code and the stripped output, and no artifact field, and
    the world is the pipeline's with the cleanup applied: nothing was
    collected.  When the code is zero the collection runs on the pipeline's
    world: its artifacts are merged into a response with status
    [succeeded], and its exception, if it raises one, is the handler's. *)
Theorem pipeline_exit_code (event : gmap string (gmap string string))
    (w w3 : World) (pdf_path : path) (cleanup_paths : list path)
    (cp : CompletedProcess) :
  pipeline_ran host event w pdf_path cleanup_paths cp w3 →
  (returncode cp ≠ 0%Z →
     ∃ response,
       handler host event w
       = (Ok response, set_files (removals host cleanup_paths) w3)
       ∧ response !! "status" = Some (VStr "failed")
       ∧ response !! "return_code" = Some (VInt (returncode cp))
       ∧ response !! "stdout" = Some (VText (strip (stdout cp)))
       ∧ response !! "stderr" = Some (VText (strip (stderr cp)))
       ∧ ∀ k, k ∈ artifact_keys → response !! k = None)
  ∧ (returncode cp = 0%Z →
     (∀ artifacts w4,
        _collect_artifacts host pdf_path (output_dir_of host (job_input_of event)) w3
        = (Ok artifacts, w4) →
        ∃ response,
          handler host event w
          = (Ok response, set_files (removals host cleanup_paths) w4)
          ∧ response !! "status" = Some (VStr "succeeded")
          ∧ response !! "return_code" = Some (VInt 0)
          ∧ ∀ k v, artifacts !! k = Some v → response !! k = Some v)
     ∧ (∀ e w4,
        _collect_artifacts host pdf_path (output_dir_of host (job_input_of event)) w3
        = (Raise e, w4) →
        handler host event w = (Raise e, w4))).
Proof.
  intros Hrun. split.
  - intros Hcode. eexists. split.
    + eapply handler_assembled; [exact Hrun|].
      unfold assemble. by rewrite bool_decide_eq_true_2.
    + unfold process_fields. split_and!; lookup_fields; try done.
      intros k Hk. unfold artifact_keys in Hk.
      repeat (apply elem_of_cons in Hk as [->|Hk]; [by lookup_fields|]).
      by apply elem_of_nil in Hk.
  - intros Hcode. split.
    + intros artifacts w4 Hcol. eexists. split.
      * eapply handler_assembled; [exact Hrun|].
        unfold assemble. rewrite bool_decide_eq_false_2 by tauto.
        etransitivity; [by apply bind_Ok|]. done.
      * unfold process_fields. split_and!.
        -- apply lookup_union_Some_raw. right. split; [|by lookup_fields].
           apply eq_None_not_Some. intros Hk.
           apply (collect_artifacts_keys _ _ _ _ _ _ Hcol) in Hk.
           by not_an_artifact Hk.
        -- apply lookup_union_Some_raw. right.
           split; [|lookup_fields; by rewrite Hcode].
           apply eq_None_not_Some. intros Hk.
           apply (collect_artifacts_keys _ _ _ _ _ _ Hcol) in Hk.
           by not_an_artifact Hk.
        -- intros k v Hk. by apply lookup_union_Some_l.
    + intros e w4 Hcol. eapply handler_not_assembled; [exact Hrun|].
      unfold assemble. rewrite bool_decide_eq_false_2 by tauto.
      by apply bind_Raise.
Qed.

Lemma handler_inv_Ok (event : gmap string (gmap string string)) (w w3 w' : World)
    (pdf_path : path) (cleanup_paths : list path) (cp : CompletedProcess)
    (response : gmap string value) :
  pipeline_ran host event w pdf_path cleanup_paths cp w3 →
  handler host event w = (Ok response, w') →
  ∃ w4,
    assemble host pdf_path (output_dir_of host (job_input_of event))
      (command_of host (job_input_of event) pdf_path) cp w3 = (Ok response, w4)
    ∧ w' = set_files (removals host cleanup_paths) w4.
Proof.
  intros Hrun Hh.
  destruct (assemble host pdf_path (output_dir_of host (job_input_of event))
              (command_of host (job_input_of event) pdf_path) cp w3)
    as [[response'|e] w4] eqn:Hasm.
  - rewrite (handler_assembled _ _ _ _ _ _ _ _ Hrun Hasm) in Hh.
    injection Hh as -> <-. eauto.
  - by rewrite (handler_not_assembled _ _ _ _ _ _ _ _ Hrun Hasm) in Hh.
Qed.

Lemma assemble_succeeded_inv (pdf_path output_dir : path) (command : list string)
    (cp : CompletedProcess) (w3 w4 : World) (response : gmap string value) :
  returncode cp = 0%Z →
  assemble host pdf_path output_dir command cp w3 = (Ok response, w4) →
  ∃ artifacts,
    _collect_artifacts host pdf_path output_dir w3 = (Ok artifacts, w4)
    ∧ response
      = artifacts ∪ <["status" := VStr "succeeded"]> (process_fields command cp).
Proof.
  intros Hcode. unfold assemble. rewrite bool_decide_eq_false_2 by tauto.
  intros (artifacts & w' & Hcol & [= <- <-])%bind_inv_Ok. eauto.
Qed.

Lemma collect_artifacts_inv (pdf_path output_dir : path) (w w' : World)
    (artifacts : gmap string value) :
  _collect_artifacts host pdf_path output_dir w = (Ok artifacts, w') →
  ∃ markdown detection layout,
    encoded_text (files w !! markdown_path_of pdf_path output_dir) = Ok markdown
    ∧ encoded_text (files w !! detail_markdown_path_of pdf_path output_dir)
      = Ok detection
    ∧ layout_text (files w !! layout_pdf_path_of pdf_path output_dir) = Ok layout
    ∧ archived host pdf_path output_dir w
        (text_artifacts pdf_path output_dir markdown detection layout)
      = (Ok artifacts, w').
Proof.
  rewrite collect_artifacts_eq.
  destruct (encoded_text _) as [markdown|]; [|done].
  destruct (encoded_text _) as [detection|]; [|done].
  destruct (layout_text _) as [layout|]; [|done].
  eauto 10.
Qed.

Lemma archived_inv (pdf_path output_dir : path) (w w' : World)
    (fields artifacts : gmap string value) :
  archived host pdf_path output_dir w fields = (Ok artifacts, w') →
  (files w !! images_dir_of output_dir = None ∧ artifacts = fields ∧ w' = w)
  ∨ (is_Some (files w !! images_dir_of output_dir)
     ∧ artifacts
       = <["images_archive_path" :=
             VStr (str (abspath (getcwd host)
                          (archive_path_of pdf_path output_dir)))]> fields
     ∧ w' = set_files
              (insert (archive_path_of pdf_path output_dir)
                 (File (zipfile host
                          (archive_entries (images_dir_of output_dir) (files w)))))
              w).
Proof.
  unfold archived.
  destruct (files w !! images_dir_of _) as [n|].
  - destruct (files w !! archive_path_of _ _) as [[d|]|]; [|done|];
      intros [= <- <-]; by right.
  - intros [= <- <-]. by left.
Qed.

Lemma status_fields_keys (status : string) (command : list string)
    (cp : CompletedProcess) (k : string) :
  is_Some ((<["status" := VStr status]> (process_fields command cp)) !! k) →
  k ∈ ["command"; "return_code"; "stdout"; "stderr"; "status"].
Proof.
  unfold process_fields.
  repeat (intros [<-|H']%lookup_insert_is_Some'; [set_solver|revert H']).
  rewrite lookup_empty. by intros ?%is_Some_None.
Qed.

Lemma response_keys_only (event : gmap string (gmap string string)) (w w3 w' : World)
    (pdf_path : path) (cleanup_paths : list path) (cp : CompletedProcess)
    (response : gmap string value) (k : string) :
  pipeline_ran host event w pdf_path cleanup_paths cp w3 →
  handler host event w = (Ok response, w') →
  is_Some (response !! k) → k ∈ response_keys.
Proof.
  intros Hrun Hh. destruct (handler_inv_Ok _ _ _ _ _ _ _ _ Hrun Hh) as (w4 & Hasm & _).
  revert Hasm. unfold assemble, response_keys. case_bool_decide.
  - intros [= <- <-] Hk. apply elem_of_app. left. by eapply status_fields_keys.
  - intros (artifacts & w5 & Hcol & [= <- <-])%bind_inv_Ok.
    intros [v [Hk|[_ Hk]]%lookup_union_Some_raw]; apply elem_of_app.
    + right. eapply collect_artifacts_keys; eauto.
    + left. eapply status_fields_keys; eauto.
Qed.

(** C5: after a run with exit code zero that returns a response, a primary
    markdown file that is absent is reported under [markdown_missing] with
    the path where it was expected, and the response has no [markdown]
    field; an absent detection markdown leaves no field at all: neither
    [detection_markdown] nor [detection_markdown_path], and the response
    has no field beyond the known ones. *)
Theorem missing_markdown_marker (event : gmap string (gmap string string))
    (w w3 w' : World) (pdf_path : path) (cleanup_paths : list path)
    (cp : CompletedProcess) (response : gmap string value) :
  pipeline_ran host event w pdf_path cleanup_paths cp w3 →
  returncode cp = 0%Z →
  handler host event w = (Ok response, w') →
  (files w3 !! markdown_path_of pdf_path (output_dir_of host (job_input_of event))
   = None →
   response !! "markdown_missing"
   = Some (VStr (str (markdown_path_of pdf_path
                        (output_dir_of host (job_input_of event)))))
   ∧ response !! "markdown" = None)
  ∧ (files w3 !! detail_markdown_path_of pdf_path
                   (output_dir_of host (job_input_of event)) = None →
     response !! "detection_markdown" = None
     ∧ response !! "detection_markdown_path" = None
     ∧ ∀ k, is_Some (response !! k) → k ∈ response_keys).
Proof.
  intros Hrun Hcode Hh.
  destruct (handler_inv_Ok _ _ _ _ _ _ _ _ Hrun Hh) as (w4 & Hasm & _).
  destruct (assemble_succeeded_inv _ _ _ _ _ _ _ Hcode Hasm)
    as (artifacts & Hcol & ->).
  destruct (collect_artifacts_inv _ _ _ _ _ Hcol)
    as (markdown & detection & layout & Hmd & Hdet & Hlay & Harch).
  unfold process_fields.
  split.
  - intros Hnone. rewrite Hnone in Hmd. injection Hmd as <-.
    apply archived_inv in Harch as [(_ & -> & _)|(_ & -> & _)];
      unfold text_artifacts; destruct detection, layout;
      split; first [apply lookup_union_Some_l | apply lookup_union_None_2];
      by lookup_fields.
  - intros Hnone. rewrite Hnone in Hdet. injection Hdet as <-.
    split_and!; [..|intros k; by eapply response_keys_only];
    apply archived_inv in Harch as [(_ & -> & _)|(_ & -> & _)];
      unfold text_artifacts; destruct markdown, layout;
      apply lookup_union_None_2; by lookup_fields.
Qed.

End Response.

Lemma result_map_Raise {A B} (f : A → B) (r : result A) (e : exn) :
  result_map f r = Raise e → r = Raise e.
Proof. destruct r; simpl; intros; by simplify_eq. Qed.

Lemma decode_raises_below (n : nat) :
  ∀ bs e, (length bs < n)%nat → Utf8.decode bs = Raise e → e = UnicodeDecodeError.
Proof.
  induction n as [|n IH]; [lia|].
  intros [|b0 r0] e Hlen; cbn [Utf8.decode]; [done|].
  assert (∀ r (f : unicode → unicode), (length r < n)%nat →
            result_map f (Utf8.decode r) = Raise e → e = UnicodeDecodeError)
    as Hrec.
  { intros r f Hr Hd%result_map_Raise. by eapply IH. }
  simpl in Hlen.
  repeat match goal with
  | |- context [if ?c then _ else _] => destruct c
  | |- context [match ?l with [] => _ | _ :: _ => _ end] => destruct l; simpl in Hlen
  | |- Raise _ = Raise _ → _ => by intros [= <-]
  | |- result_map _ _ = Raise _ → _ => apply Hrec; lia
  end.
Qed.

Lemma decode_raises (bs : bytes) (e : exn) :
  Utf8.decode bs = Raise e → e = UnicodeDecodeError.
Proof. apply (decode_raises_below (S (length bs))). lia. Qed.

Lemma relative_to_Some (root p rel : path) :
  relative_to root p = Some rel ↔ p = root ++ rel.
Proof.
  revert p. induction root as [|r root IH]; intros p; simpl.
  { split; [by intros [= ->]|by intros ->]. }
  destruct p as [|x p]; [done|]. case_decide as Hx.
  - subst x. rewrite IH. split; [by intros ->|by intros [= ->]].
  - split; [done|]. intros [= -> _]. done.
Qed.

Lemma elem_of_zip_entries (root_dir rel : path) (n : node) (fs : gmap path node) :
  (rel, n) ∈ zip_entries root_dir fs ↔ rel ≠ [] ∧ fs !! (root_dir ++ rel) = Some n.
Proof.
  unfold zip_entries. rewrite list_elem_of_omap. split.
  - intros ([p m] & Hin%elem_of_map_to_list & Hrel). simpl in Hrel.
    destruct (relative_to root_dir p) as [[|part r]|] eqn:E; [done| |done].
    injection Hrel as <- <-. apply relative_to_Some in E as ->. done.
  - intros [Hne Hfs]. exists (root_dir ++ rel, n). split.
    + by apply elem_of_map_to_list.
    + simpl. rewrite (proj2 (relative_to_Some root_dir (root_dir ++ rel) rel) eq_refl).
      by destruct rel.
Qed.

Section Cleanup.

Context (host : Host).

(** C1 (amended): when the handler returns a response, whether the pipeline
    exited with zero or not, the cleanup loop ran on the world in which the
    response was assembled, one removal for each ephemeral path in order,
    and left the response as it was; an ephemeral path whose removal the
    operating system permits is absent from the world the handler leaves. *)
Theorem ephemeral_cleanup (event : gmap string (gmap string string))
    (w w3 w4 : World) (pdf_path : path) (cleanup_paths : list path)
    (cp : CompletedProcess) :
  pipeline_ran host event w pdf_path cleanup_paths cp w3 →
  returncode cp ≠ 0%Z ∧ w4 = w3
  ∨ returncode cp = 0%Z
    ∧ (∃ artifacts,
         _collect_artifacts host pdf_path
           (output_dir_of host (job_input_of event)) w3 = (Ok artifacts, w4)) →
  ∃ response,
    assemble host pdf_path (output_dir_of host (job_input_of event))
      (command_of host (job_input_of event) pdf_path) cp w3 = (Ok response, w4)
    ∧ for_each cleanup_paths (cleanup_path host) w4
      = (Ok (), set_files (removals host cleanup_paths) w4)
    ∧ handler host event w
      = (Ok response, set_files (removals host cleanup_paths) w4)
    ∧ ∀ p, p ∈ cleanup_paths → (∀ fs, may_remove host fs p = true) →
        files (set_files (removals host cleanup_paths) w4) !! p = None.
Proof.
  intros Hrun Hexit.
  assert (∃ response,
    assemble host pdf_path (output_dir_of host (job_input_of event))
      (command_of host (job_input_of event) pdf_path) cp w3 = (Ok response, w4))
    as [response Hasm].
  { unfold assemble. destruct Hexit as [[Hcode ->]|[Hcode [artifacts Hcol]]].
    - rewrite bool_decide_eq_true_2 by done. by eexists.
    - rewrite bool_decide_eq_false_2 by tauto. eexists.
      etransitivity; [by apply bind_Ok|]. done. }
  exists response. split_and!; [done|apply cleanup_loop_eq| |].
  - by eapply handler_assembled.
  - intros p Hin Hp. simpl. by apply removals_removes.
Qed.

(** C10: the pipeline exited with zero and the primary markdown, or the
    detection markdown next to a primary one that is no directory, is a file
    of at most 500,000 bytes that is not UTF-8: the handler raises the
    decoding error instead of returning a response, and it leaves the world
    as the pipeline left it: the cleanup loop did not run and every
    ephemeral path the pipeline left in place is still there. *)
Theorem undecodable_markdown_skips_cleanup
    (event : gmap string (gmap string string)) (w w3 : World) (pdf_path : path)
    (cleanup_paths : list path) (cp : CompletedProcess) :
  pipeline_ran host event w pdf_path cleanup_paths cp w3 →
  returncode cp = 0%Z →
  undecodable (files w3 !! markdown_path_of pdf_path
                             (output_dir_of host (job_input_of event)))
  ∨ undecodable (files w3 !! detail_markdown_path_of pdf_path
                               (output_dir_of host (job_input_of event)))
    ∧ files w3 !! markdown_path_of pdf_path
                    (output_dir_of host (job_input_of event)) ≠ Some Dir →
  handler host event w = (Raise UnicodeDecodeError, w3)
  ∧ ∀ p n, p ∈ cleanup_paths → files w3 !! p = Some n →
      files (handler host event w).2 !! p = Some n.
Proof.
  intros Hrun Hcode Hbad.
  assert (handler host event w = (Raise UnicodeDecodeError, w3)) as Hh.
  { eapply handler_not_assembled; [exact Hrun|].
    unfold assemble. rewrite bool_decide_eq_false_2 by tauto.
    apply bind_Raise. rewrite collect_artifacts_eq.
    destruct Hbad as [(data & -> & Hlen & Hdec)|[(data & -> & Hlen & Hdec) Hmd]].
    - simpl. rewrite bool_decide_eq_true_2 by done. by rewrite Hdec.
    - destruct (files w3 !! markdown_path_of _ _) as [[primary|]|]; simpl.
      + case_bool_decide.
        * destruct (Utf8.decode primary) as [t|e] eqn:Hp; simpl.
          -- rewrite bool_decide_eq_true_2 by done. by rewrite Hdec.
          -- by rewrite (decode_raises _ _ Hp).
        * rewrite Utf8Facts.decode_ascii by apply Base64Facts.b64encode_ascii.
          simpl. rewrite bool_decide_eq_true_2 by done. by rewrite Hdec.
      + done.
      + rewrite bool_decide_eq_true_2 by done. by rewrite Hdec. }
  split; [done|]. by rewrite Hh.
Qed.

End Cleanup.

(** ** Names: the archive never has the name of the document *)

Lemma chars_text (cs : list ascii) : chars (text cs) = cs.
Proof. apply String.list_ascii_of_string_of_list_ascii. Qed.

Lemma chars_app (a b : string) : chars (a +:+ b) = chars a ++ chars b.
Proof.
  induction a as [|x a IH]; [done|].
  change (x :: chars (a +:+ b) = x :: chars a ++ chars b). by f_equal.
Qed.

Lemma rfind_lookup (c : ascii) (cs : list ascii) (i : nat) :
  rfind c cs = Some i → cs !! i = Some c.
Proof.
  revert i. induction cs as [|a cs IH]; intros i; simpl; [done|].
  destruct (rfind c cs) as [j|].
  - intros [= <-]. by apply IH.
  - case_decide; [|done]. intros [= <-]. by subst.
Qed.

Lemma base_stem_images_ne (p : path) :
  base_stem p +:+ "_images.zip" ≠ name p.
Proof.
  intros Heq%(f_equal chars). rewrite chars_app in Heq.
  pose proof (f_equal length Heq) as Hlen. rewrite length_app in Hlen.
  change (length (chars "_images.zip")) with 11 in Hlen.
  unfold base_stem in Heq, Hlen. destruct (endswith _ _).
  { unfold drop_last in Hlen. rewrite chars_text, length_take in Hlen. lia. }
  unfold stem in Heq, Hlen.
  destruct (rfind "." (chars (name p))) as [i|] eqn:Hdot; [|lia].
  case_bool_decide as Hi; [|lia].
  rewrite chars_text in Heq, Hlen. rewrite length_take in Hlen.
  apply rfind_lookup in Hdot. rewrite <- Heq in Hdot.
  rewrite lookup_app_r in Hdot by (rewrite length_take; lia).
  rewrite length_take in Hdot.
  replace (i - i `min` length (chars (name p))) with 0 in Hdot by lia.
  done.
Qed.

Lemma name_last (p : path) : p ≠ ["/"] → name p = default "" (last p).
Proof.
  intros Hp. unfold name.
  destruct p as [|x [|y l]]; [done| |by destruct x as [|[[] [] [] [] [] [] [] []] [|]]].
  destruct x as [|[[] [] [] [] [] [] [] []] [|c' x]]; try done.
Qed.

Lemma archive_path_ne (pdf_path output_dir : path) :
  archive_path_of pdf_path output_dir ≠ pdf_path.
Proof.
  unfold archive_path_of, joinpath. intros Heq.
  assert (last pdf_path = Some (base_stem pdf_path +:+ "_images.zip")) as Hlast.
  { rewrite <- Heq at 1. apply last_snoc. }
  destruct (decide (pdf_path = ["/"])) as [->|Hroot].
  { vm_compute in Hlast. discriminate. }
  apply (base_stem_images_ne pdf_path).
  by rewrite (name_last _ Hroot), Hlast.
Qed.

(** ** The images archive *)

Lemma normpath_parts_plain (parts acc : list string) :
  forallb (λ comp, bool_decide (comp ≠ "" ∧ comp ≠ "." ∧ comp ≠ "..")) parts
  = true →
  foldl (λ new_comps comp,
           if bool_decide (comp = "" ∨ comp = ".") then new_comps
           else if bool_decide (comp = "..") then removelast new_comps
           else new_comps ++ [comp])
        acc parts
  = acc ++ parts.
Proof.
  revert acc. induction parts as [|comp parts IH]; intros acc; simpl.
  { by rewrite app_nil_r. }
  intros [(H1 & H2 & H3)%bool_decide_eq_true Hrest]%andb_prop.
  rewrite bool_decide_eq_false_2 by tauto.
  rewrite bool_decide_eq_false_2 by done.
  rewrite IH by done. by rewrite <- app_assoc.
Qed.

Lemma abspath_normal (cwd p : path) : is_normal p = true → abspath cwd p = p.
Proof.
  unfold is_normal, abspath.
  intros [Habs Hplain]%andb_prop. rewrite Habs.
  unfold normpath_parts. rewrite normpath_parts_plain by done.
  apply bool_decide_eq_true in Habs. destruct p as [|root parts]; [done|].
  simpl in *. congruence.
Qed.

Lemma archive_path_normal (pdf_path output_dir : path) :
  is_normal output_dir = true →
  is_normal (archive_path_of pdf_path output_dir) = true.
Proof.
  unfold is_normal, archive_path_of, joinpath, isabs.
  intros [Habs%bool_decide_eq_true Hplain]%andb_prop.
  destruct output_dir as [|root parts]; [done|]. simpl in *.
  rewrite bool_decide_eq_true_2 by done. simpl.
  rewrite forallb_app, Hplain. simpl. rewrite andb_true_r.
  apply bool_decide_eq_true.
  split_and!; intros Heq%(f_equal chars)%(f_equal length);
    rewrite chars_app, length_app in Heq; simpl in Heq; lia.
Qed.

Section Archive.

Context (host : Host).

(** C8 (amended): when a run with exit code zero returns a response and
    the images directory exists, the archive is the file
    [{stem}_images.zip] inside the output directory, and nothing else was
    written by the collection; read back, its entries are the directories
    and files below the images directory, each under its path relative to
    that directory; and the response holds the absolute path of the
    archive (the archive's path itself when the output directory is
    absolute and without [..]) and, besides, only the text fields and the
    process fields, none of which reads the images. *)
Theorem images_archive (event : gmap string (gmap string string))
    (w w3 w' : World) (pdf_path : path) (cleanup_paths : list path)
    (cp : CompletedProcess) (response : gmap string value) :
  pipeline_ran host event w pdf_path cleanup_paths cp w3 →
  returncode cp = 0%Z →
  handler host event w = (Ok response, w') →
  files w3 !! images_dir_of (output_dir_of host (job_input_of event)) = Some Dir →
  (∀ entries, namelist host (zipfile host entries) = entries) →
  archive_path_of pdf_path (output_dir_of host (job_input_of event))
  = output_dir_of host (job_input_of event) ++ [base_stem pdf_path +:+ "_images.zip"]
  ∧ (∃ w4 data,
       w' = set_files (removals host cleanup_paths) w4
       ∧ files w4 !! archive_path_of pdf_path (output_dir_of host (job_input_of event))
         = Some (File data)
       ∧ (∀ q, q ≠ archive_path_of pdf_path (output_dir_of host (job_input_of event)) →
               files w4 !! q = files w3 !! q)
       ∧ ∀ rel n,
           (rel, n) ∈ namelist host data
           ↔ rel ≠ []
             ∧ files w3 !! (images_dir_of (output_dir_of host (job_input_of event))
                            ++ rel) = Some n)
  ∧ response !! "images_archive_path"
    = Some (VStr (str (abspath (getcwd host)
                         (archive_path_of pdf_path
                            (output_dir_of host (job_input_of event))))))
  ∧ (is_normal (output_dir_of host (job_input_of event)) = true →
     response !! "images_archive_path"
     = Some (VStr (str (archive_path_of pdf_path
                          (output_dir_of host (job_input_of event))))))
  ∧ ∃ markdown detection layout,
      encoded_text (files w3 !! markdown_path_of pdf_path
                       (output_dir_of host (job_input_of event))) = Ok markdown
      ∧ encoded_text (files w3 !! detail_markdown_path_of pdf_path
                         (output_dir_of host (job_input_of event)))
        = Ok detection
      ∧ layout_text (files w3 !! layout_pdf_path_of pdf_path
                        (output_dir_of host (job_input_of event))) = Ok layout
      ∧ response
        = <["images_archive_path" :=
              VStr (str (abspath (getcwd host)
                           (archive_path_of pdf_path
                              (output_dir_of host (job_input_of event)))))]>
            (text_artifacts pdf_path (output_dir_of host (job_input_of event))
               markdown detection layout)
          ∪ <["status" := VStr "succeeded"]>
              (process_fields (command_of host (job_input_of event) pdf_path) cp).
Proof.
  intros Hrun Hcode Hh Himg Hzip.
  destruct (handler_inv_Ok _ _ _ _ _ _ _ _ _ Hrun Hh) as (w4 & Hasm & ->).
  destruct (assemble_succeeded_inv _ _ _ _ _ _ _ _ Hcode Hasm)
    as (artifacts & Hcol & ->).
  destruct (collect_artifacts_inv _ _ _ _ _ _ Hcol)
    as (markdown & detection & layout & Hmd & Hdet & Hlay & Harch).
  apply archived_inv in Harch as [(Hnone & _)|(_ & -> & ->)]; [congruence|].
  assert (∀ v : value,
            (<["images_archive_path" := v]>
               (text_artifacts pdf_path (output_dir_of host (job_input_of event))
                  markdown detection layout)
             ∪ <["status" := VStr "succeeded"]>
                 (process_fields (command_of host (job_input_of event) pdf_path) cp))
            !! "images_archive_path" = Some v) as Hfield.
  { intros v. apply lookup_union_Some_l, lookup_insert_eq. }
  split_and!.
  - done.
  - eexists _, _. split_and!; [done|simpl; apply lookup_insert_eq| |].
    + intros q Hq. simpl. by rewrite lookup_insert_ne.
    + intros rel n. rewrite Hzip. unfold archive_entries. rewrite Himg.
      apply elem_of_zip_entries.
  - apply Hfield.
  - intros Hnormal. rewrite abspath_normal by by apply archive_path_normal.
    apply Hfield.
  - eauto 10.
Qed.

End Archive.

(** The world [subprocess.run] leaves, whether it returns or raises: the
    files as the process left them, and the process logged. *)
Lemma subprocess_run_world (host : Host) (command : list string) (cwd : path)
    (w : World) :
  (subprocess_run host command cwd w).2
  = {| files := (process host command cwd (files w)).2;
       trace := trace w ++ [Spawn command] |}.
Proof.
  unfold subprocess_run, lift, mbind, M_bind, mret, M_ret.
  destruct (process host command cwd (files w)) as [[child|e] fs]; [|done].
  destruct (_translate_newlines host (stdout_bytes child)); [|done].
  by destruct (_translate_newlines host (stderr_bytes child)).
Qed.

Section Frame.

Context (host : Host).

Lemma collect_artifacts_keeps (pdf_path output_dir q : path) (w w' : World)
    (r : result (gmap string value)) (n : node) :
  _collect_artifacts host pdf_path output_dir w = (r, w') →
  q ≠ archive_path_of pdf_path output_dir →
  files w !! q = Some n → files w' !! q = Some n.
Proof.
  rewrite collect_artifacts_eq. intros Hcol Hq Hn.
  destruct (encoded_text _); [|by injection Hcol as _ <-].
  destruct (encoded_text _); [|by injection Hcol as _ <-].
  destruct (layout_text _); [|by injection Hcol as _ <-].
  unfold archived in Hcol.
  destruct (files w !! images_dir_of _) as [images|];
    [|by injection Hcol as _ <-].
  destruct (files w !! archive_path_of _ _) as [[d|]|];
    injection Hcol as _ <-; simpl; try done; by rewrite lookup_insert_ne.
Qed.

(** C9: a job with [pdf_path] is resolved to that path, expanded, with an
    empty cleanup list and in an unchanged world; and whatever the handler
    returns or raises, the node at that path is the one that was there,
    provided the pipeline process itself leaves it alone. *)
Theorem pdf_path_not_deleted (event : gmap string (gmap string string))
    (w : World) (v : string) (n : node) :
  job_input_of event !! "pdf_path" = Some v →
  files w !! expanduser (HOME host) (Path v) = Some n →
  (∀ command cwd fs,
     fs !! expanduser (HOME host) (Path v) = Some n →
     (process host command cwd fs).2 !! expanduser (HOME host) (Path v) = Some n) →
  (∀ w1 w2 pdf_path cleanup_paths,
     _ensure_pdf_input host (job_input_of event) w1
     = (Ok (pdf_path, cleanup_paths), w2) →
     pdf_path = expanduser (HOME host) (Path v) ∧ cleanup_paths = [] ∧ w2 = w1)
  ∧ files (handler host event w).2 !! expanduser (HOME host) (Path v) = Some n.
Proof.
  intros Hkey Hn Hpipe.
  set (candidate := expanduser (HOME host) (Path v)) in *.
  assert (∀ w1, _ensure_pdf_input host (job_input_of event) w1
                = (if bool_decide (is_Some (files w1 !! candidate))
                   then Ok (candidate, [])
                   else Raise (HandlerError
                          ("Provided pdf_path does not exist: " +:+ str candidate)),
                   w1)) as Hres.
  { intros w1. unfold _ensure_pdf_input. rewrite Hkey.
    unfold exists_, mbind, M_bind, mret, M_ret, raise. fold candidate.
    by case_bool_decide. }
  split.
  { intros w1 w2 pdf_path cleanup_paths. rewrite Hres.
    case_bool_decide; [|done]. by intros [= <- <- <-]. }
  unfold handler. fold (job_input_of event).
  fold (output_dir_of host (job_input_of event)).
  unfold mbind at 1, M_bind at 1.
  destruct (mkdir_parents host _ w) as [[[]|e] w1] eqn:Hmk;
    apply mkdir_from_keeps in Hmk as [_ Hkeep]; apply Hkeep in Hn; [|done].
  unfold mbind at 1, M_bind at 1. rewrite Hres.
  rewrite bool_decide_eq_true_2 by eauto.
  fold (command_of host (job_input_of event) candidate).
  unfold mbind at 1, M_bind at 1.
  destruct (_run_pipeline host _ w1) as [[cp|e] w3] eqn:Hrun;
    (assert (files w3 !! candidate = Some n) as Hn3;
     [apply (f_equal snd) in Hrun; simpl in Hrun; subst w3;
      unfold _run_pipeline; rewrite subprocess_run_world; simpl;
      by apply Hpipe|]);
    [|done].
  unfold mbind at 1, M_bind at 1. case_bool_decide.
  { simpl. done. }
  unfold mbind at 1, M_bind at 1.
  destruct (_collect_artifacts host candidate _ w3) as [[artifacts|e] w4] eqn:Hcol;
    eapply collect_artifacts_keeps in Hcol; eauto using archive_path_ne.
Qed.

End Frame.

(** ** Concrete runs *)

Import Example.

(** A closed equation between outcomes, decided by evaluation. *)
Ltac by_evaluation :=
  match goal with
  | |- ?P => apply (bool_decide_eq_true_1 P); vm_compute; reflexivity
  end.

(** [mkstemp] returns a name that was free and creates it, empty. *)
Lemma mkstemp_fresh (host : Host) (suffix : string) (w w' : World) (p : path) :
  mkstemp host suffix w = (Ok p, w') →
  files w !! p = None ∧ w' = set_files (insert p (File [])) w.
Proof.
  unfold mkstemp.
  destruct (list_find _ _) as [[i q]|] eqn:E; [|done].
  intros [= <- <-]. by apply list_find_Some in E as (_ & ? & _).
Qed.

(** What a payload that does not decode leaves behind: the temporary file
    was created before the decoding was tried. *)
Lemma write_base64_malformed (host : Host) (encoded suffix : string)
    (w w' : World) (p : path) (e : exn) :
  Base64.b64decode encoded = Raise e →
  mkstemp host suffix w = (Ok p, w') →
  _write_base64_file host encoded suffix w = (Raise e, w')
  ∧ files w !! p = None ∧ files w' !! p = Some (File []).
Proof.
  intros Hdec Hmk. split.
  - unfold _write_base64_file. etransitivity; [by apply bind_Ok|].
    apply bind_Raise. unfold lift. by rewrite Hdec.
  - apply mkstemp_fresh in Hmk as [Hnone ->]. split; [done|].
    simpl. apply lookup_insert_eq.
Qed.

(** C7 (the code at the failing input): the payload ["abc"] does not decode;
    the handler raises before any process is started, and the temporary
    file, which was not there before the call, is there after it, empty. *)
Theorem malformed_base64_leaves_temp_file :
  Base64.b64decode "abc" = Raise BinasciiError
  ∧ files w0 !! temp_pdf = None
  ∧ (handler host_ok (job "pdf_base64" "abc") w0).1 = Raise BinasciiError
  ∧ trace (handler host_ok (job "pdf_base64" "abc") w0).2 = []
  ∧ files (handler host_ok (job "pdf_base64" "abc") w0).2 !! temp_pdf
    = Some (File []).
Proof. split_and!; vm_compute; reflexivity. Qed.

(** C3 (the code at the failing input): the pipeline process terminates
    with exit code 1 after it wrote a message in Latin-1, with a byte that
    is not UTF-8, to its standard error.  [subprocess.run] raises
    [UnicodeDecodeError] when it decodes the captured output, and so does
    the handler: no response with status [failed] is returned, and the
    temporary file of the job stays. *)
Theorem undecodable_output_is_raised :
  (process host_garbled
     (command_of host_garbled {[ "pdf_base64" := payload ]} temp_pdf)
     (ROOT_DIR host_garbled)
     (files (resolved host_garbled "pdf_base64" payload))).1
  = Ok {| exit_code := 1; stdout_bytes := [];
          stderr_bytes := ascii_bytes "Erreur: m" ++ [Byte.xe9]
                          ++ ascii_bytes "moire insuffisante" |}
  ∧ locale_decode host_garbled = Utf8.decode
  ∧ handler host_garbled (job "pdf_base64" payload) w0
    = (Raise UnicodeDecodeError, piped host_garbled "pdf_base64" payload)
  ∧ trace (piped host_garbled "pdf_base64" payload)
    = [Spawn (command_of host_garbled {[ "pdf_base64" := payload ]} temp_pdf)]
  ∧ files (piped host_garbled "pdf_base64" payload) !! temp_pdf
    = Some (File (ascii_bytes "%PDF-1.7")).
Proof.
  split_and!; [vm_compute; reflexivity|reflexivity|by_evaluation
              |vm_compute; reflexivity|vm_compute; reflexivity].
Qed.

(** The runs used below reach the end of the pipeline. *)
Lemma ran_ok_base64 :
  pipeline_ran host_ok (job "pdf_base64" payload) w0 temp_pdf [temp_pdf]
    {| args := command_of host_ok {[ "pdf_base64" := payload ]} temp_pdf;
       returncode := 0; stdout := code_points " 1 page
"; stderr := code_points "" |}
    (piped host_ok "pdf_base64" payload).
Proof.
  exists (mkdir_parents host_ok output_dir w0).2, (resolved host_ok "pdf_base64" payload).
  split_and!; by_evaluation.
Qed.

Lemma ran_failed_base64 :
  pipeline_ran host_failed (job "pdf_base64" payload) w0 temp_pdf [temp_pdf]
    {| args := command_of host_failed {[ "pdf_base64" := payload ]} temp_pdf;
       returncode := 1; stdout := code_points "";
       stderr := code_points "RuntimeError: CUDA out of memory
" |}
    (piped host_failed "pdf_base64" payload).
Proof.
  exists (mkdir_parents host_failed output_dir w0).2, (resolved host_failed "pdf_base64" payload).
  split_and!; by_evaluation.
Qed.

Lemma ran_quiet_base64 :
  pipeline_ran host_quiet (job "pdf_base64" payload) w0 temp_pdf [temp_pdf]
    {| args := command_of host_quiet {[ "pdf_base64" := payload ]} temp_pdf;
       returncode := 0; stdout := code_points ""; stderr := code_points "" |}
    (piped host_quiet "pdf_base64" payload).
Proof.
  exists (mkdir_parents host_quiet output_dir w0).2, (resolved host_quiet "pdf_base64" payload).
  split_and!; by_evaluation.
Qed.

Lemma ran_latin1_base64 :
  pipeline_ran host_latin1 (job "pdf_base64" payload) w0 temp_pdf [temp_pdf]
    {| args := command_of host_latin1 {[ "pdf_base64" := payload ]} temp_pdf;
       returncode := 0; stdout := code_points ""; stderr := code_points "" |}
    (piped host_latin1 "pdf_base64" payload).
Proof.
  exists (mkdir_parents host_latin1 output_dir w0).2, (resolved host_latin1 "pdf_base64" payload).
  split_and!; by_evaluation.
Qed.

Lemma ran_stored :
  pipeline_ran host_stored (job "pdf_path" "/data/report.pdf") w0 stored_pdf []
    {| args := command_of host_stored {[ "pdf_path" := "/data/report.pdf" ]} stored_pdf;
       returncode := 0; stdout := code_points ""; stderr := code_points "" |}
    (piped host_stored "pdf_path" "/data/report.pdf").
Proof.
  exists (mkdir_parents host_stored output_dir w0).2,
    (resolved host_stored "pdf_path" "/data/report.pdf").
  split_and!; by_evaluation.
Qed.

(** C1, on a run: the temporary file of a [pdf_base64] job is gone after a
    successful call on a host that permits its removal. *)
Lemma ephemeral_cleanup_witness :
  files (handler host_ok (job "pdf_base64" payload) w0).2 !! temp_pdf = None.
Proof.
  destruct (ephemeral_cleanup host_ok (job "pdf_base64" payload) w0
              (piped host_ok "pdf_base64" payload)
              (_collect_artifacts host_ok temp_pdf output_dir
                 (piped host_ok "pdf_base64" payload)).2
              temp_pdf [temp_pdf] _ ran_ok_base64)
    as (response & _ & _ & -> & Habsent).
  - right. split; [reflexivity|].
    exists (response_of (_collect_artifacts host_ok temp_pdf output_dir
                           (piped host_ok "pdf_base64" payload))).
    by_evaluation.
  - apply Habsent; [apply list_elem_of_singleton; reflexivity|].
    intros fs. reflexivity.
Defined.

(** C1 as stated fails: the path is recorded as ephemeral, the call returns
    a response, and the temporary file is still there, because its removal
    was refused and the error discarded. *)
Lemma cleanup_refused_file_remains :
  (_ensure_pdf_input host_denied {[ "pdf_base64" := payload ]}
     (mkdir_parents host_denied output_dir w0).2).1 = Ok (temp_pdf, [temp_pdf])
  ∧ handler host_denied (job "pdf_base64" payload) w0
    = (Ok (response_of (handler host_denied (job "pdf_base64" payload) w0)),
       (handler host_denied (job "pdf_base64" payload) w0).2)
  ∧ files (handler host_denied (job "pdf_base64" payload) w0).2 !! temp_pdf
    = Some (File (ascii_bytes "%PDF-1.7")).
Proof. split_and!; [by_evaluation..|vm_compute; reflexivity]. Qed.

(** X18, on a run: the pipeline exits with 1 and the handler returns the
    [failed] response. *)
Lemma pipeline_exit_code_witness :
  ∃ response,
    handler host_failed (job "pdf_base64" payload) w0
    = (Ok response,
       set_files (removals host_failed [temp_pdf])
         (piped host_failed "pdf_base64" payload))
    ∧ response !! "status" = Some (VStr "failed")
    ∧ response !! "return_code" = Some (VInt 1)
    ∧ response !! "stdout" = Some (VText [])
    ∧ response !! "stderr"
      = Some (VText (code_points "RuntimeError: CUDA out of memory"))
    ∧ ∀ k, k ∈ artifact_keys → response !! k = None.
Proof.
  apply (pipeline_exit_code host_failed (job "pdf_base64" payload) w0 _ temp_pdf
           [temp_pdf] _ ran_failed_base64).
  simpl. lia.
Defined.


(** C5, on a run in which the pipeline wrote nothing. *)
Lemma missing_markdown_marker_witness :
  response_of (handler host_quiet (job "pdf_base64" payload) w0)
    !! "markdown_missing" = Some (VStr "/tmp/runpod-output/tmpk3v9x_1a.mmd")
  ∧ response_of (handler host_quiet (job "pdf_base64" payload) w0)
      !! "markdown" = None
  ∧ response_of (handler host_quiet (job "pdf_base64" payload) w0)
      !! "detection_markdown" = None
  ∧ response_of (handler host_quiet (job "pdf_base64" payload) w0)
      !! "detection_markdown_path" = None.
Proof.
  destruct (missing_markdown_marker host_quiet (job "pdf_base64" payload) w0
              (piped host_quiet "pdf_base64" payload)
              (handler host_quiet (job "pdf_base64" payload) w0).2
              temp_pdf [temp_pdf] _
              (response_of (handler host_quiet (job "pdf_base64" payload) w0))
              ran_quiet_base64 eq_refl)
    as [Hmd Hdet]; [by_evaluation|].
  destruct Hmd as [Hmissing Hnone]; [vm_compute; reflexivity|].
  destruct Hdet as (Hd1 & Hd2 & _); [vm_compute; reflexivity|].
  split_and!; [exact Hmissing|exact Hnone|exact Hd1|exact Hd2].
Defined.

(** The archives of the example hosts can be read back. *)
Lemma entries_of_zip_of (entries : list (path * node)) :
  entries_of (zip_of entries) = entries.
Proof.
  unfold entries_of, zip_of.
  change (drop 2 (ascii_bytes "PK" ++ bits_of_positive (encode entries)))
    with (bits_of_positive (encode entries)).
  assert (∀ p, positive_of_bits (bits_of_positive p) = p) as ->.
  { induction p as [p IH|p IH|]; simpl; by rewrite ?IH. }
  by rewrite decode_encode.
Qed.

(** C8 (amended), on a run with an images directory. *)
Lemma images_archive_witness :
  response_of (handler host_stored (job "pdf_path" "/data/report.pdf") w0)
    !! "images_archive_path"
  = Some (VStr "/tmp/runpod-output/report_images.zip")
  ∧ ∃ w4 data,
      files w4 !! (output_dir ++ ["report_images.zip"]) = Some (File data)
      ∧ ∀ rel n,
          (rel, n) ∈ namelist host_stored data
          ↔ rel ≠ []
            ∧ files (piped host_stored "pdf_path" "/data/report.pdf")
                !! (output_dir ++ ["images"] ++ rel) = Some n.
Proof.
  destruct (images_archive host_stored (job "pdf_path" "/data/report.pdf") w0
              (piped host_stored "pdf_path" "/data/report.pdf")
              (handler host_stored (job "pdf_path" "/data/report.pdf") w0).2
              stored_pdf [] _
              (response_of (handler host_stored (job "pdf_path" "/data/report.pdf") w0))
              ran_stored eq_refl)
    as (_ & (w4 & data & _ & Hfile & _ & Hentries) & _ & Hfield & _);
    [by_evaluation|vm_compute; reflexivity|exact entries_of_zip_of|].
  split; [apply Hfield; vm_compute; reflexivity|].
  exists w4, data. split; [exact Hfile|exact Hentries].
Defined.

(** C8 as stated fails: the archive is written inside the output directory,
    nothing is written next to it, and the archive holds an entry for the
    sub-directory [page0] besides the one for the file in it. *)
Lemma archive_inside_output_dir :
  handler host_stored (job "pdf_path" "/data/report.pdf") w0
  = (Ok (response_of (handler host_stored (job "pdf_path" "/data/report.pdf") w0)),
     (handler host_stored (job "pdf_path" "/data/report.pdf") w0).2)
  ∧ response_of (handler host_stored (job "pdf_path" "/data/report.pdf") w0)
      !! "images_archive_path"
    = Some (VStr "/tmp/runpod-output/report_images.zip")
  ∧ ¬ alongside ["/"; "tmp"; "runpod-output"; "report_images.zip"]
        ["/"; "tmp"; "runpod-output"]
  ∧ files (handler host_stored (job "pdf_path" "/data/report.pdf") w0).2
      !! ["/"; "tmp"; "report_images.zip"] = None
  ∧ files (handler host_stored (job "pdf_path" "/data/report.pdf") w0).2
      !! ["/"; "tmp"; "runpod-output"; "report_images.zip"]
    = Some (File (zip_of [(["page0"; "0.jpg"], File (ascii_bytes "JFIF"));
                          (["page0"], Dir)])).
Proof.
  split_and!; [by_evaluation|vm_compute; reflexivity|
               |vm_compute; reflexivity|vm_compute; reflexivity].
  intros (parent & n & m & Hdir%(f_equal length) & Hzip%(f_equal length)).
  rewrite length_app in Hdir, Hzip. simpl in Hdir, Hzip. lia.
Qed.

(** C9, on a run whose pipeline writes markdown and images. *)
Lemma pdf_path_not_deleted_witness :
  files (handler host_stored (job "pdf_path" "/data/report.pdf") w0).2 !! stored_pdf
  = Some (File (ascii_bytes "%PDF-1.4")).
Proof.
  apply (pdf_path_not_deleted host_stored (job "pdf_path" "/data/report.pdf") w0
           "/data/report.pdf" (File (ascii_bytes "%PDF-1.4"))).
  - vm_compute. reflexivity.
  - vm_compute. reflexivity.
  - intros command cwd fs Hfs. simpl. unfold writes_all.
    rewrite !lookup_insert_ne by (vm_compute; discriminate). exact Hfs.
Defined.

(** C10, on a run whose pipeline wrote Latin-1 markdown: the temporary file
    of the job is still there after the call. *)
Lemma undecodable_markdown_skips_cleanup_witness :
  handler host_latin1 (job "pdf_base64" payload) w0
  = (Raise UnicodeDecodeError, piped host_latin1 "pdf_base64" payload)
  ∧ files (handler host_latin1 (job "pdf_base64" payload) w0).2 !! temp_pdf
    = Some (File (ascii_bytes "%PDF-1.7")).
Proof.
  destruct (undecodable_markdown_skips_cleanup host_latin1
              (job "pdf_base64" payload) w0 _ temp_pdf [temp_pdf] _
              ran_latin1_base64 eq_refl) as [Hh Hkeep].
  - left. exists [Byte.x63; Byte.x61; Byte.x66; Byte.xe9].
    split_and!; [vm_compute; reflexivity|vm_compute; discriminate
                |vm_compute; reflexivity].
  - split; [exact Hh|]. apply Hkeep; [apply list_elem_of_singleton; reflexivity|].
    vm_compute. reflexivity.
Defined.

(** * Further properties of the handler *)

(** ** Downloading and decoding into a temporary file *)

Section TemporaryFiles.

Context (host : Host).

Lemma set_files_insert_twice (p : path) (a b : node) (w : World) :
  set_files (insert p b) (set_files (insert p a) w) = set_files (insert p b) w.
Proof. destruct w as [fs tr]. unfold set_files. simpl. by rewrite insert_insert_eq. Qed.

(** X1: a download that fails creates no temporary file.  When the request
    raises, or the status is in 400..599, [_download_to_file] raises (the
    request's exception, or [HTTPError] with the status) in a world that
    differs from the initial one only by the logged request. *)
Theorem download_failure_creates_nothing (url suffix : string) (w : World) :
  (∀ e, http host url = Raise e →
     _download_to_file host url suffix w = (Raise e, log (HttpGet url) w))
  ∧ (∀ r, http host url = Ok r → (400 ≤ status_code r < 600)%Z →
     _download_to_file host url suffix w
     = (Raise (HTTPError (status_code r)), log (HttpGet url) w))
  ∧ files (log (HttpGet url) w) = files w.
Proof.
  unfold _download_to_file, requests_get, raise_for_status, mbind, M_bind, raise.
  split_and!.
  - by intros e ->.
  - intros r -> Hs. by rewrite bool_decide_eq_true_2.
  - done.
Qed.

(** X2: a download that succeeds (any status outside 400..599) returns the
    name [mkstemp] created; that name was free before the call, the file
    holds exactly the body of the response, and one request was logged. *)
Theorem download_creates_fresh_file (url suffix : string) (w w1 : World)
    (r : Response) (p : path) :
  http host url = Ok r →
  ¬ (400 ≤ status_code r < 600)%Z →
  mkstemp host suffix (log (HttpGet url) w) = (Ok p, w1) →
  _download_to_file host url suffix w
  = (Ok p, set_files (insert p (File (content r))) (log (HttpGet url) w))
  ∧ files w !! p = None.
Proof.
  intros Hr Hs Hmk. pose proof (mkstemp_fresh _ _ _ _ _ Hmk) as [Hfree ->].
  split; [|done].
  unfold _download_to_file, requests_get, raise_for_status, write_bytes,
    mbind, M_bind, mret, M_ret.
  rewrite Hr, bool_decide_eq_false_2 by done. rewrite Hmk.
  by rewrite set_files_insert_twice.
Qed.

(** X3: writing the base64 text of some bytes gives a file with these
    bytes: [_write_base64_file] returns the name [mkstemp] created, which
    was free before, and the file holds the decoded payload. *)
Theorem write_base64_roundtrip (data : bytes) (suffix : string) (w w1 : World)
    (p : path) :
  mkstemp host suffix w = (Ok p, w1) →
  _write_base64_file host (String.string_of_list_byte (Base64.b64encode data))
    suffix w
  = (Ok p, set_files (insert p (File data)) w)
  ∧ files w !! p = None.
Proof.
  intros Hmk. pose proof (mkstemp_fresh _ _ _ _ _ Hmk) as [Hfree ->].
  split; [|done].
  unfold _write_base64_file, write_bytes, lift, mbind, M_bind, mret, M_ret.
  rewrite Hmk, Base64Facts.b64decode_b64encode.
  by rewrite set_files_insert_twice.
Qed.

Lemma download_inv (url suffix : string) (w w' : World) (p : path) :
  _download_to_file host url suffix w = (Ok p, w') →
  files w !! p = None
  ∧ ∃ data, w' = set_files (insert p (File data)) (log (HttpGet url) w).
Proof.
  unfold _download_to_file, requests_get, raise_for_status, write_bytes,
    mbind, M_bind, mret, M_ret, raise.
  destruct (http host url) as [r|e]; [|done].
  case_bool_decide; [done|].
  destruct (mkstemp host suffix (log (HttpGet url) w)) as [[q|e] w1] eqn:Hmk;
    [|done].
  apply mkstemp_fresh in Hmk as [Hfree ->]. intros [= <- <-].
  split; [done|]. exists (content r). by rewrite set_files_insert_twice.
Qed.

Lemma write_base64_inv (encoded suffix : string) (w w' : World) (p : path) :
  _write_base64_file host encoded suffix w = (Ok p, w') →
  files w !! p = None ∧ ∃ data, w' = set_files (insert p (File data)) w.
Proof.
  unfold _write_base64_file, write_bytes, lift, mbind, M_bind, mret, M_ret.
  destruct (mkstemp host suffix w) as [[q|e] w1] eqn:Hmk; [|done].
  apply mkstemp_fresh in Hmk as [Hfree ->].
  destruct (Base64.b64decode encoded) as [data|e]; [|done].
  intros [= <- <-]. split; [done|]. exists data. by rewrite set_files_insert_twice.
Qed.

(** X5: what a successful resolution returns.  The resolved path exists in
    the world resolution leaves.  The cleanup list is empty and the file
    system untouched (the [pdf_path] mode), or it holds exactly the
    resolved path, which did not exist before the call and was created as a
    regular file, every other path being left as it was. *)
Theorem resolution_owns_what_it_cleans (job_input : gmap string string)
    (w w2 : World) (pdf_path : path) (cleanup_paths : list path) :
  _ensure_pdf_input host job_input w = (Ok (pdf_path, cleanup_paths), w2) →
  is_Some (files w2 !! pdf_path)
  ∧ (cleanup_paths = [] ∧ w2 = w
     ∨ cleanup_paths = [pdf_path] ∧ files w !! pdf_path = None
       ∧ ∃ data, files w2 = <[pdf_path := File data]> (files w)).
Proof.
  unfold _ensure_pdf_input.
  destruct (job_input !! "pdf_path") as [v|].
  { unfold exists_, mbind, M_bind, mret, M_ret, raise.
    case_bool_decide as Hex; [|done]. intros [= <- <- <-]. split; [done|by left]. }
  destruct (job_input !! "pdf_url") as [url|].
  { intros (p & w' & Hd & [= <- <- <-])%bind_inv_Ok.
    apply download_inv in Hd as (Hfree & data & ->). simpl.
    rewrite lookup_insert_eq. split; [done|]. right. eauto. }
  destruct (job_input !! "pdf_base64") as [encoded|]; [|done].
  intros (p & w' & Hd & [= <- <- <-])%bind_inv_Ok.
  apply write_base64_inv in Hd as (Hfree & data & ->). simpl.
  rewrite lookup_insert_eq. split; [done|]. right. eauto.
Qed.

End TemporaryFiles.

(** X4: every [pdf_base64] payload the decoder rejects makes the handler
    raise the decoder's exception, with nothing requested or started, and
    leaves behind the empty temporary file [mkstemp] had created: the name
    was free before, it is a file without content after, and every other
    path is as [mkdir] left it. *)
Theorem rejected_payload_leaves_empty_file (host : Host)
    (event : gmap string (gmap string string)) (encoded : string)
    (w w1 w2 : World) (p : path) (e : exn) :
  job_input_of event !! "pdf_path" = None →
  job_input_of event !! "pdf_url" = None →
  job_input_of event !! "pdf_base64" = Some encoded →
  Base64.b64decode encoded = Raise e →
  mkdir_parents host (output_dir_of host (job_input_of event)) w = (Ok (), w1) →
  mkstemp host ".pdf" w1 = (Ok p, w2) →
  handler host event w = (Raise e, w2)
  ∧ trace w2 = trace w
  ∧ files w1 !! p = None
  ∧ files w2 !! p = Some (File [])
  ∧ ∀ q, q ≠ p → files w2 !! q = files w1 !! q.
Proof.
  intros H1 H2 H3 Hdec Hmk Htmp.
  destruct (write_base64_malformed host encoded ".pdf" w1 w2 p e Hdec Htmp)
    as (Hw & Hfree & Hfile).
  split_and!; [| |done|done|].
  - unfold handler. fold (job_input_of event).
    fold (output_dir_of host (job_input_of event)).
    etransitivity; [by apply bind_Ok|]. apply bind_Raise.
    unfold _ensure_pdf_input. rewrite H1, H2, H3. by apply bind_Raise.
  - apply mkstemp_fresh in Htmp as [_ ->]. simpl. by eapply mkdir_from_keeps.
  - intros q Hq. apply mkstemp_fresh in Htmp as [_ ->]. simpl.
    by rewrite lookup_insert_ne.
Qed.

(** ** The output directory *)

Section OutputDirectory.

Context (host : Host).

Lemma mkdir_from_dirs (todo seen : path) (w w' : World) :
  mkdir_from host seen todo w = (Ok (), w') →
  ∀ k, 0 < k ≤ length todo → files w' !! (seen ++ take k todo) = Some Dir.
Proof.
  revert seen w. induction todo as [|part todo IH]; intros seen w; simpl.
  { intros _ k Hk. lia. }
  assert (∀ w1, mkdir_from host (seen ++ [part]) todo w1 = (Ok (), w') →
            files w1 !! (seen ++ [part]) = Some Dir →
            ∀ k, 0 < k ≤ S (length todo) →
                 files w' !! (seen ++ take k (part :: todo)) = Some Dir) as Hstep.
  { intros w1 Hmk Hhere k Hk. destruct k as [|k]; [lia|]. simpl.
    destruct (decide (k = 0)) as [->|Hk0].
    - rewrite take_0. by eapply mkdir_from_keeps.
    - rewrite (cons_middle part), app_assoc. eapply IH; [done|lia]. }
  destruct (files w !! (seen ++ [part])) as [[data|]|] eqn:E; [done| |].
  - intros Hmk. by eapply Hstep.
  - destruct (mkdir_refused host (files w) (seen ++ [part])); [done|].
    intros Hmk. eapply Hstep; [done|]. simpl. apply lookup_insert_eq.
Qed.

Lemma mkdir_from_again (todo seen : path) (w : World) :
  (∀ k, 0 < k ≤ length todo → files w !! (seen ++ take k todo) = Some Dir) →
  mkdir_from host seen todo w = (Ok (), w).
Proof.
  revert seen. induction todo as [|part todo IH]; intros seen Hdirs; simpl; [done|].
  assert (files w !! (seen ++ [part]) = Some Dir) as ->.
  { apply (Hdirs 1). simpl. lia. }
  apply IH. intros k Hk.
  rewrite <- app_assoc. apply (Hdirs (S k)). simpl. lia.
Qed.

(** X6: [mkdir(parents=True, exist_ok=True)] on the output directory.  When
    it succeeds every part of the path down to the directory itself is a
    directory, what existed before is unchanged, nothing is sent or
    started, and doing it again changes nothing and succeeds (an existing
    directory is no error). *)
Theorem mkdir_parents_creates_path (p : path) (w w' : World) :
  mkdir_parents host p w = (Ok (), w') →
  (∀ q, q ≠ [] → q `prefix_of` p → files w' !! q = Some Dir)
  ∧ (∀ q n, files w !! q = Some n → files w' !! q = Some n)
  ∧ trace w' = trace w
  ∧ mkdir_parents host p w' = (Ok (), w').
Proof.
  unfold mkdir_parents. intros Hmk.
  pose proof (mkdir_from_dirs _ _ _ _ Hmk) as Hdirs.
  pose proof (mkdir_from_keeps _ _ _ _ _ _ Hmk) as [Htrace Hkeep].
  split_and!; [|done|done|by apply mkdir_from_again].
  intros q Hq [rest ->]. specialize (Hdirs (length q)). simpl in Hdirs.
  rewrite take_app_length in Hdirs. apply Hdirs.
  rewrite length_app. destruct q; [done|]. simpl. lia.
Qed.

(** What a failed [mkdir] leaves, and why it failed: only directories
    along the path were added, and the error comes from a file on the path
    or from a directory the operating system refused to create. *)
Lemma mkdir_from_failed (todo seen : path) (w w1 : World) (e : exn) :
  mkdir_from host seen todo w = (Raise e, w1) →
  (∀ q, files w !! q = None → is_Some (files w1 !! q) →
        files w1 !! q = Some Dir ∧ q `prefix_of` seen ++ todo)
  ∧ ∃ q, q `prefix_of` seen ++ todo
         ∧ ((∃ data, files w1 !! q = Some (File data)
                     ∧ e = (if decide (q = seen ++ todo) then FileExistsError
                            else NotADirectoryError))
            ∨ files w1 !! q = None ∧ mkdir_refused host (files w1) q = Some e).
Proof.
  revert seen w. induction todo as [|part todo IH]; intros seen w; simpl; [done|].
  replace (seen ++ part :: todo) with ((seen ++ [part]) ++ todo)
    by (by rewrite <- app_assoc).
  destruct (files w !! (seen ++ [part])) as [[data|]|] eqn:E.
  - intros Hmk. injection Hmk as He <-. split.
    { intros q Hq [n Hn]. congruence. }
    exists (seen ++ [part]). split; [by apply prefix_app_r|]. left.
    exists data. split; [done|]. subst e. destruct todo as [|part' todo].
    + rewrite app_nil_r. by rewrite decide_True.
    + rewrite decide_False; [done|]. intros Heq.
      apply (f_equal length) in Heq. rewrite !length_app in Heq. simpl in Heq. lia.
  - apply IH.
  - destruct (mkdir_refused host (files w) (seen ++ [part])) as [e'|] eqn:Href.
    + intros [= <- <-]. split.
      { intros q Hq [n Hn]. congruence. }
      exists (seen ++ [part]). split; [by apply prefix_app_r|]. by right.
    + intros Hmk. pose proof (mkdir_from_keeps _ _ _ _ _ _ Hmk) as [_ Hkeep].
      apply IH in Hmk as [Hnew Hcause]. split; [|done].
      intros q Hq Hsome. destruct (decide (q = seen ++ [part])) as [->|Hne].
      * split; [|by apply prefix_app_r]. apply Hkeep. simpl.
        apply lookup_insert_eq.
      * apply Hnew; [|done]. simpl. by rewrite lookup_insert_ne.
Qed.

(** X7: when the output directory cannot be created the handler raises
    the error of [mkdir] before it looks at the input: nothing is
    requested, decoded or started, and no temporary file is created (what
    existed is unchanged and only directories along the path of the output
    directory were added).  The error comes from a regular file on that
    path ([FileExistsError] for the directory's own path,
    [NotADirectoryError] for a parent) or is the error with which the
    operating system refused to create a directory on it. *)
Theorem output_dir_blocked (event : gmap string (gmap string string))
    (w w1 : World) (e : exn) :
  mkdir_parents host (output_dir_of host (job_input_of event)) w = (Raise e, w1) →
  handler host event w = (Raise e, w1)
  ∧ trace w1 = trace w
  ∧ (∀ q n, files w !! q = Some n → files w1 !! q = Some n)
  ∧ (∀ q, files w !! q = None → is_Some (files w1 !! q) →
          files w1 !! q = Some Dir
          ∧ q `prefix_of` output_dir_of host (job_input_of event))
  ∧ ∃ q, q `prefix_of` output_dir_of host (job_input_of event)
         ∧ ((∃ data, files w1 !! q = Some (File data)
                     ∧ e = (if decide (q = output_dir_of host (job_input_of event))
                            then FileExistsError else NotADirectoryError))
            ∨ files w1 !! q = None ∧ mkdir_refused host (files w1) q = Some e).
Proof.
  intros Hmk. split.
  { unfold handler. fold (job_input_of event).
    fold (output_dir_of host (job_input_of event)). by apply bind_Raise. }
  pose proof (mkdir_from_keeps _ _ _ _ _ _ Hmk) as [Htrace Hkeep].
  apply mkdir_from_failed in Hmk as [Hnew Hcause].
  by split_and!.
Qed.

End OutputDirectory.

(** ** What a call does to the outside *)

Section Outside.

Context (host : Host).


Lemma collect_artifacts_trace (pdf_path output_dir : path) (w : World) :
  trace (_collect_artifacts host pdf_path output_dir w).2 = trace w.
Proof.
  rewrite collect_artifacts_eq.
  destruct (encoded_text _); [|done].
  destruct (encoded_text _); [|done].
  destruct (layout_text _); [|done].
  unfold archived.
  destruct (files w !! images_dir_of _) as [images|]; [|done].
  by destruct (files w !! archive_path_of _ _) as [[d|]|].
Qed.



(** X9: when the process cannot be started ([subprocess.run] raises), the
    handler raises the same exception and the cleanup loop is not reached:
    the world is the one in which the start failed, and every ephemeral
    path in it is still there. *)
Theorem spawn_failure_skips_cleanup (event : gmap string (gmap string string))
    (w w1 w2 w3 : World) (pdf_path : path) (cleanup_paths : list path) (e : exn) :
  mkdir_parents host (output_dir_of host (job_input_of event)) w = (Ok (), w1) →
  _ensure_pdf_input host (job_input_of event) w1
  = (Ok (pdf_path, cleanup_paths), w2) →
  _run_pipeline host (command_of host (job_input_of event) pdf_path) w2
  = (Raise e, w3) →
  handler host event w = (Raise e, w3)
  ∧ ∀ p n, p ∈ cleanup_paths → files w3 !! p = Some n →
      files (handler host event w).2 !! p = Some n.
Proof.
  intros Hmk Hres Hrun.
  assert (handler host event w = (Raise e, w3)) as Hh; [|by rewrite Hh].
  - unfold handler. fold (job_input_of event).
    fold (output_dir_of host (job_input_of event)).
    etransitivity; [by apply bind_Ok|].
    etransitivity; [by apply bind_Ok|]. cbn beta iota.
    fold (command_of host (job_input_of event) pdf_path).
    by apply bind_Raise.
Qed.

(** X10: a job without any of the three source keys (an event without
    [input] is such a job) is rejected with [HandlerError], but only after
    the output directory was created: the world the handler leaves is the
    one [mkdir] left, nothing was requested and nothing started. *)
Theorem no_source_key (event : gmap string (gmap string string)) (w w1 : World) :
  job_input_of event !! "pdf_path" = None →
  job_input_of event !! "pdf_url" = None →
  job_input_of event !! "pdf_base64" = None →
  mkdir_parents host (output_dir_of host (job_input_of event)) w = (Ok (), w1) →
  handler host event w
  = (Raise (HandlerError
       "No PDF input provided. Supply one of `pdf_path`, `pdf_url`, or `pdf_base64`."),
     w1)
  ∧ trace w1 = trace w
  ∧ (output_dir_of host (job_input_of event) ≠ [] →
     files w1 !! output_dir_of host (job_input_of event) = Some Dir).
Proof.
  intros H1 H2 H3 Hmk. split_and!.
  - unfold handler. fold (job_input_of event).
    fold (output_dir_of host (job_input_of event)).
    etransitivity; [by apply bind_Ok|]. apply bind_Raise.
    unfold _ensure_pdf_input. by rewrite H1, H2, H3.
  - by eapply mkdir_from_keeps.
  - intros Hne.
    pose proof (mkdir_from_dirs _ _ _ _ _ Hmk
                  (length (output_dir_of host (job_input_of event)))) as Hdir.
    simpl in Hdir. rewrite firstn_all in Hdir. apply Hdir.
    destruct (output_dir_of host (job_input_of event)); [done|simpl; lia].
Qed.

End Outside.

(** ** The stem and the artifact names *)

Lemma text_chars (s : string) : text (chars s) = s.
Proof. apply String.string_of_list_ascii_of_string. Qed.

Lemma text_app (a b : list ascii) : text (a ++ b) = text a +:+ text b.
Proof.
  induction a as [|x a IH]; [done|].
  change (String x (text (a ++ b)) = String x (text a +:+ text b)). by f_equal.
Qed.

Lemma string_app_nil_r (s : string) : s +:+ "" = s.
Proof.
  induction s as [|x s IH]; [done|].
  change (String x (s +:+ "") = String x s). by f_equal.
Qed.

Lemma lower_char_dot (c : ascii) : lower_char c = "."%char → c = "."%char.
Proof. destruct c as [[] [] [] [] [] [] [] []]; vm_compute; congruence. Qed.

Lemma rfind_absent (c : ascii) (cs : list ascii) : c ∉ cs → rfind c cs = None.
Proof.
  induction cs as [|a cs IH]; simpl; [done|].
  intros [Hne Hcs]%not_elem_of_cons. rewrite IH by done.
  by rewrite decide_False.
Qed.

Lemma rfind_None (c : ascii) (cs : list ascii) : rfind c cs = None → c ∉ cs.
Proof.
  induction cs as [|a cs IH]; simpl; [intros _; apply not_elem_of_nil|].
  destruct (rfind c cs); [done|]. destruct (decide (a = c)); [done|].
  intros _. apply not_elem_of_cons. auto.
Qed.

Lemma rfind_after (c : ascii) (cs : list ascii) (i : nat) :
  rfind c cs = Some i → c ∉ drop (S i) cs.
Proof.
  revert i. induction cs as [|a cs IH]; intros i; simpl; [done|].
  destruct (rfind c cs) as [j|] eqn:E.
  - intros [= <-]. by apply IH.
  - destruct (decide (a = c)); [|done]. intros [= <-]. rewrite drop_0.
    by apply rfind_None.
Qed.

Lemma rfind_app (c : ascii) (a r : list ascii) :
  c ∉ r → rfind c (a ++ c :: r) = Some (length a).
Proof.
  intros Hr. induction a as [|x a IH]; simpl.
  - rewrite rfind_absent by done. by rewrite decide_True.
  - by rewrite IH.
Qed.

Lemma text_nil_inv (cs : list ascii) : text cs = "" → cs = [].
Proof. by destruct cs. Qed.

Lemma chars_cons (c : ascii) (s : string) : chars (String c s) = c :: chars s.
Proof. done. Qed.

(** X11: the stem used for the artifact names is the file name without
    its last suffix.  The name is the stem followed by what was removed:
    nothing, or a dot and a text that is not empty and holds no further
    dot.  For a name that ends in [.pdf] in any letter case the part
    removed is exactly these four characters; for any other name the stem
    that remains is not empty.  Nothing is removed only from a name
    without a suffix: one with no dot, or whose last dot is its first or
    its last character. *)
Theorem base_stem_drops_one_suffix (p : path) :
  ∃ rest,
    name p = base_stem p +:+ rest
    ∧ (rest = "" ∨ ∃ r, rest = String "." r ∧ r ≠ "" ∧ "."%char ∉ chars r)
    ∧ (endswith (lower (name p)) ".pdf" = true → lower rest = ".pdf")
    ∧ (endswith (lower (name p)) ".pdf" = false → rest ≠ "" → base_stem p ≠ "")
    ∧ (rest = "" →
       ∀ a r, name p = a +:+ String "." r → "."%char ∉ chars r →
              a = "" ∨ r = "").
Proof.
  unfold base_stem. destruct (endswith (lower (name p)) ".pdf") eqn:Hpdf.
  - unfold endswith, lower in Hpdf. apply bool_decide_eq_true_1 in Hpdf.
    rewrite chars_text in Hpdf. destruct Hpdf as [k Hk].
    pose proof (f_equal length Hk) as Hlen.
    rewrite length_fmap, length_app in Hlen. simpl in Hlen.
    set (cs := chars (name p)) in *.
    assert (lower_char <$> drop (length cs - 4) cs = chars ".pdf") as Hext.
    { rewrite fmap_drop, Hk, drop_app_length'; [done|lia]. }
    exists (text (drop (length cs - 4) cs)).
    destruct (drop (length cs - 4) cs) as [|c0 [|c1 [|c2 [|c3 [|]]]]] eqn:Hdrop;
      try done.
    injection Hext as H0 H1 H2 H3. apply lower_char_dot in H0 as ->.
    split_and!.
    + unfold drop_last. fold cs. rewrite <- Hdrop, <- text_app, take_drop.
      symmetry. apply text_chars.
    + right. exists (text [c1; c2; c3]). split_and!; [done|done|].
      rewrite chars_text. intros Hin.
      repeat (apply elem_of_cons in Hin as [<-|Hin]; [done|]).
      by apply elem_of_nil in Hin.
    + intros _. unfold lower. rewrite chars_text. simpl.
      by rewrite H1, H2, H3.
    + done.
    + done.
  - unfold stem. set (cs := chars (name p)).
    assert (∀ a r, name p = a +:+ String "." r → "."%char ∉ chars r →
                   rfind "." cs = Some (length (chars a))
                   ∧ length cs = length (chars a) + S (length (chars r))) as Hsplit.
    { intros a r Hname Hr. subst cs. rewrite Hname, chars_app, chars_cons.
      split; [by apply rfind_app|]. rewrite length_app. done. }
    destruct (rfind "." cs) as [i|] eqn:Hdot.
    2:{ exists "". rewrite string_app_nil_r.
        split_and!; [done|by left|done|done|].
        intros _ a r Hname Hr. by destruct (Hsplit a r Hname Hr). }
    case_bool_decide as Hi.
    + exists (text (drop i cs)).
      pose proof (rfind_lookup _ _ _ Hdot) as Hat.
      pose proof (rfind_after _ _ _ Hdot) as Hafter.
      rewrite (drop_S _ _ _ Hat). split_and!.
      * rewrite <- (drop_S _ _ _ Hat), <- text_app, take_drop.
        symmetry. apply text_chars.
      * right. exists (text (drop (S i) cs)). split_and!; [done| |].
        -- intros Hnil%text_nil_inv%(f_equal length).
           rewrite length_drop in Hnil. simpl in Hnil. lia.
        -- by rewrite chars_text.
      * done.
      * intros _ _ Hnil%text_nil_inv%(f_equal length).
        rewrite length_take in Hnil. simpl in Hnil. lia.
      * done.
    + exists "". rewrite string_app_nil_r.
      split_and!; [done|by left|done|done|].
      intros _ a r Hname Hr. destruct (Hsplit a r Hname Hr) as [[= ->] Hlen].
      destruct a as [|x a]; [by left|]. destruct r as [|y r]; [by right|].
      exfalso. apply Hi. simpl in *. lia.
Qed.

Lemma string_app_inv_head (s a b : string) : s +:+ a = s +:+ b → a = b.
Proof.
  intros H%(f_equal chars). rewrite !chars_app in H.
  apply app_inv_head in H. rewrite <- (text_chars a), <- (text_chars b).
  by rewrite H.
Qed.

(** X12: the archive has a name of its own: it is not the primary
    markdown, the detection markdown or the layout document, and it does
    not lie in the images directory, so writing it overwrites none of them. *)
Theorem archive_name_is_free (pdf_path output_dir : path) :
  archive_path_of pdf_path output_dir ≠ markdown_path_of pdf_path output_dir
  ∧ archive_path_of pdf_path output_dir
    ≠ detail_markdown_path_of pdf_path output_dir
  ∧ archive_path_of pdf_path output_dir ≠ layout_pdf_path_of pdf_path output_dir
  ∧ ¬ images_dir_of output_dir `prefix_of` archive_path_of pdf_path output_dir.
Proof.
  unfold archive_path_of, markdown_path_of, detail_markdown_path_of,
    layout_pdf_path_of, images_dir_of, joinpath.
  split_and!.
  - intros H%app_inv_head. injection H as H. by apply string_app_inv_head in H.
  - intros H%app_inv_head. injection H as H. by apply string_app_inv_head in H.
  - intros H%app_inv_head. injection H as H. by apply string_app_inv_head in H.
  - intros [rest H]. rewrite <- app_assoc in H. apply app_inv_head in H.
    injection H as H _. apply (f_equal (length ∘ chars)) in H. simpl in H.
    rewrite chars_app, length_app in H. simpl in H. lia.
Qed.

(** ** The artifact fields *)

Lemma encoded_text_Ok (n : option node) (c : option unicode) :
  encoded_text n = Ok c → (is_Some c ↔ is_Some n).
Proof.
  destruct n as [[data|]|]; simpl; [|done|].
  - case_bool_decide; intros (t & _ & ->)%result_map_Ok; split; eauto.
  - intros [= <-]. split; by intros [].
Qed.

Lemma layout_text_Ok (n : option node) (c : option unicode) :
  layout_text n = Ok c →
  match n with
  | Some (File data) => c = Some (Byte.to_N <$> Base64.b64encode data)
  | Some Dir => False
  | None => c = None
  end.
Proof.
  destruct n as [[data|]|]; simpl; [|done|by intros [= <-]].
  rewrite Utf8Facts.decode_ascii by apply Base64Facts.b64encode_ascii.
  by intros [= <-].
Qed.

Section Artifacts.

Context (host : Host).

(** X13: the layout document is returned as base64 whatever its size: when
    [{stem}_layouts.pdf] is a file and the collection returns, the
    artifacts hold its path and canonical base64 text that decodes to
    exactly its bytes; when it is absent they hold neither field. *)
Theorem layout_is_always_base64 (pdf_path output_dir : path) (w w' : World)
    (artifacts : gmap string value) :
  _collect_artifacts host pdf_path output_dir w = (Ok artifacts, w') →
  (∀ data, files w !! layout_pdf_path_of pdf_path output_dir = Some (File data) →
     artifacts !! "layout_pdf_path"
     = Some (VStr (str (layout_pdf_path_of pdf_path output_dir)))
     ∧ ∃ s, artifacts !! "layout_pdf_base64" = Some (VText (code_points s))
            ∧ Base64.canonical (String.list_byte_of_string s) = true
            ∧ Base64.b64decode s = Ok data)
  ∧ (files w !! layout_pdf_path_of pdf_path output_dir = None →
     artifacts !! "layout_pdf_path" = None
     ∧ artifacts !! "layout_pdf_base64" = None).
Proof.
  intros Hcol.
  destruct (collect_artifacts_inv _ _ _ _ _ _ Hcol)
    as (markdown & detection & layout & _ & _ & Hlay%layout_text_Ok & Harch).
  split.
  - intros data Hfile. rewrite Hfile in Hlay. subst layout.
    apply archived_inv in Harch as [(_ & -> & _)|(_ & -> & _)];
      unfold text_artifacts; (split; [by lookup_fields|]);
      exists (String.string_of_list_byte (Base64.b64encode data));
      rewrite code_points_bytes, String.list_byte_of_string_of_list_byte;
      (split_and!; [by lookup_fields|apply Base64Facts.b64encode_canonical
                   |apply Base64Facts.b64decode_b64encode]).
  - intros Hnone. rewrite Hnone in Hlay. subst layout.
    apply archived_inv in Harch as [(_ & -> & _)|(_ & -> & _)];
      unfold text_artifacts; destruct markdown, detection; split; by lookup_fields.
Qed.

(** X14: in the response of a call that returned after exit code zero the
    artifact fields mirror the files the pipeline left.  [markdown] is
    there exactly when [{stem}.mmd] exists, and then also [markdown_path]
    and no [markdown_missing]; [markdown_missing] is there exactly when it
    does not.  [detection_markdown] comes exactly with
    [detection_markdown_path], when [{stem}_det.mmd] exists, and
    [images_archive_path] exactly when the images directory exists. *)
Theorem artifact_fields_mirror_files (event : gmap string (gmap string string))
    (w w3 w' : World) (pdf_path : path) (cleanup_paths : list path)
    (cp : CompletedProcess) (response : gmap string value) :
  pipeline_ran host event w pdf_path cleanup_paths cp w3 →
  returncode cp = 0%Z →
  handler host event w = (Ok response, w') →
  (is_Some (response !! "markdown")
   ↔ is_Some (files w3 !! markdown_path_of pdf_path
                            (output_dir_of host (job_input_of event))))
  ∧ (is_Some (response !! "markdown") ↔ is_Some (response !! "markdown_path"))
  ∧ (is_Some (response !! "markdown") ↔ response !! "markdown_missing" = None)
  ∧ (is_Some (response !! "detection_markdown")
     ↔ is_Some (files w3 !! detail_markdown_path_of pdf_path
                              (output_dir_of host (job_input_of event))))
  ∧ (is_Some (response !! "detection_markdown")
     ↔ is_Some (response !! "detection_markdown_path"))
  ∧ (is_Some (response !! "images_archive_path")
     ↔ is_Some (files w3 !! images_dir_of (output_dir_of host (job_input_of event)))).
Proof.
  intros Hrun Hcode Hh.
  destruct (handler_inv_Ok _ _ _ _ _ _ _ _ _ Hrun Hh) as (w4 & Hasm & _).
  destruct (assemble_succeeded_inv _ _ _ _ _ _ _ _ Hcode Hasm)
    as (artifacts & Hcol & ->).
  destruct (collect_artifacts_inv _ _ _ _ _ _ Hcol)
    as (markdown & detection & layout & Hmd%encoded_text_Ok
        & Hdet%encoded_text_Ok & _ & Harch).
  rewrite <- Hmd, <- Hdet. unfold process_fields.
  assert (∀ k, k ∈ artifact_keys →
            (artifacts ∪ <["status":=VStr "succeeded"]>
               (<["stderr":=VText (strip (stderr cp))]>
                  (<["stdout":=VText (strip (stdout cp))]>
                     (<["return_code":=VInt (returncode cp)]>
                        (<["command":=VStr (String.concat " "
                            (command_of host (job_input_of event) pdf_path))]>
                           ∅))))) !! k = artifacts !! k) as Hk.
  { intros k Hin. apply lookup_union_l. unfold artifact_keys in Hin.
    repeat (apply elem_of_cons in Hin as [->|Hin]; [by lookup_fields|]).
    by apply elem_of_nil in Hin. }
  rewrite !Hk by (unfold artifact_keys; repeat constructor).
  apply archived_inv in Harch as [(Himg & -> & _)|([images Himg] & -> & _)];
    rewrite Himg; unfold text_artifacts;
    destruct markdown, detection, layout; lookup_fields;
    repeat split; intros; try done; try by eexists.
  all: by match goal with H : is_Some None |- _ => destruct H end.
Qed.

End Artifacts.

(** ** What the handler leaves alone *)

Section Untouched.

Context (host : Host).

Lemma collect_artifacts_same (pdf_path output_dir q : path) (w : World) :
  q ≠ archive_path_of pdf_path output_dir →
  files (_collect_artifacts host pdf_path output_dir w).2 !! q = files w !! q.
Proof.
  intros Hq. rewrite collect_artifacts_eq.
  destruct (encoded_text _); [|done].
  destruct (encoded_text _); [|done].
  destruct (layout_text _); [|done].
  unfold archived.
  destruct (files w !! images_dir_of _) as [images|]; [|done].
  destruct (files w !! archive_path_of _ _) as [[d|]|]; simpl; try done;
    by rewrite lookup_insert_ne.
Qed.

Lemma removal_same (p q : path) (fs : gmap path node) :
  ¬ p `prefix_of` q → removal host p fs !! q = fs !! q.
Proof.
  intros Hq. unfold removal.
  destruct (fs !! p) as [[data|]|]; [| |done];
    (destruct (may_remove host fs p); [|done]).
  - apply lookup_delete_ne. by intros ->.
  - destruct (fs !! q) as [n|] eqn:E.
    + by apply map_lookup_filter_Some_2.
    + apply map_lookup_filter_None. by left.
Qed.

Lemma removals_same (cleanup_paths : list path) (q : path) (fs : gmap path node) :
  (∀ p, p ∈ cleanup_paths → ¬ p `prefix_of` q) →
  removals host cleanup_paths fs !! q = fs !! q.
Proof.
  revert fs. induction cleanup_paths as [|p l IH]; intros fs Hq; [done|].
  simpl. rewrite IH by (intros; apply Hq; by right).
  apply removal_same, Hq. by left.
Qed.

(** X15: artifact collection writes one file at most.  Whether it returns
    or raises, every path other than the archive's has the node it had,
    nothing is sent or started, and without an images directory the world
    is left exactly as it was. *)
Theorem collection_writes_only_the_archive (pdf_path output_dir : path)
    (w : World) :
  (∀ q, q ≠ archive_path_of pdf_path output_dir →
        files (_collect_artifacts host pdf_path output_dir w).2 !! q
        = files w !! q)
  ∧ trace (_collect_artifacts host pdf_path output_dir w).2 = trace w
  ∧ (files w !! images_dir_of output_dir = None →
     (_collect_artifacts host pdf_path output_dir w).2 = w).
Proof.
  split_and!.
  - intros q. apply collect_artifacts_same.
  - apply collect_artifacts_trace.
  - intros Hnone. rewrite collect_artifacts_eq.
    destruct (encoded_text _); [|done].
    destruct (encoded_text _); [|done].
    destruct (layout_text _); [|done].
    unfold archived. by rewrite Hnone.
Qed.

(** X16: once the pipeline has finished, the handler changes the file
    system only at the archive and at the ephemeral paths (with what lies
    below them): every other path has, when the handler returns or raises,
    the node the pipeline left there. *)
Theorem handler_touches_only_its_own (event : gmap string (gmap string string))
    (w w3 : World) (pdf_path : path) (cleanup_paths : list path)
    (cp : CompletedProcess) (q : path) :
  pipeline_ran host event w pdf_path cleanup_paths cp w3 →
  q ≠ archive_path_of pdf_path (output_dir_of host (job_input_of event)) →
  (∀ p, p ∈ cleanup_paths → ¬ p `prefix_of` q) →
  files (handler host event w).2 !! q = files w3 !! q.
Proof.
  intros Hrun Hq Hclean.
  destruct (assemble host pdf_path (output_dir_of host (job_input_of event))
              (command_of host (job_input_of event) pdf_path) cp w3)
    as [[response|e] w4] eqn:Hasm.
  - rewrite (handler_assembled _ _ _ _ _ _ _ _ _ Hrun Hasm). simpl.
    rewrite removals_same by done.
    revert Hasm. unfold assemble. case_bool_decide; [by intros [= _ <-]|].
    pose proof (collect_artifacts_same pdf_path
                  (output_dir_of host (job_input_of event)) q w3 Hq) as Hsame.
    unfold mbind, M_bind.
    destruct (_collect_artifacts host _ _ w3) as [[a|e] w5]; [|done].
    by intros [= _ <-].
  - rewrite (handler_not_assembled _ _ _ _ _ _ _ _ _ Hrun Hasm). simpl.
    revert Hasm. unfold assemble. case_bool_decide; [done|].
    pose proof (collect_artifacts_same pdf_path
                  (output_dir_of host (job_input_of event)) q w3 Hq) as Hsame.
    unfold mbind, M_bind.
    destruct (_collect_artifacts host _ _ w3) as [[a|e'] w5]; [done|].
    by intros [= _ <-].
Qed.

End Untouched.

(** ** The captured output *)

Lemma lstrip_spec (t : unicode) :
  ∃ a, t = a ++ lstrip t ∧ Forall (λ c, isspace c = true) a
       ∧ ∀ c, head (lstrip t) = Some c → isspace c = false.
Proof.
  induction t as [|c t (a & Ht & Ha & Hhead)]; simpl.
  { exists []. by split_and!. }
  destruct (isspace c) eqn:Hc.
  - exists (c :: a). split_and!; [by rewrite Ht at 1|by constructor|done].
  - exists []. split_and!; [done|done|]. simpl. by intros ? [= <-].
Qed.

Lemma strip_spec (t : unicode) :
  ∃ a b,
    t = a ++ strip t ++ b
    ∧ Forall (λ c, isspace c = true) a ∧ Forall (λ c, isspace c = true) b
    ∧ (∀ c, head (strip t) = Some c → isspace c = false)
    ∧ (∀ c, last (strip t) = Some c → isspace c = false).
Proof.
  unfold strip.
  destruct (lstrip_spec t) as (a & Hs & Ha & Hhead).
  destruct (lstrip_spec (reverse (lstrip t))) as (b & Hr & Hb & Hlast).
  set (l1 := lstrip t) in *. set (l2 := lstrip (reverse l1)) in *.
  assert (l1 = reverse l2 ++ reverse b) as Hl1.
  { rewrite <- reverse_app, <- Hr. by rewrite reverse_involutive. }
  exists a, (reverse b). split_and!.
  - by rewrite <- Hl1.
  - done.
  - by apply Forall_reverse.
  - intros c Hc. apply Hhead. rewrite Hl1.
    destruct (reverse l2); [done|]. done.
  - intros c Hc. apply Hlast. by rewrite last_reverse in Hc.
Qed.

Section Output.

Context (host : Host).

(** X17: the [stdout] and [stderr] of a response are the captured texts
    without the white space around them, white space being every character
    for which [str.isspace] holds: each is what remains of the captured
    text after a run of white space is cut from its start and one from its
    end, and it neither starts nor ends with white space. *)
Theorem response_output_is_stripped (event : gmap string (gmap string string))
    (w w3 w' : World) (pdf_path : path) (cleanup_paths : list path)
    (cp : CompletedProcess) (response : gmap string value) :
  pipeline_ran host event w pdf_path cleanup_paths cp w3 →
  handler host event w = (Ok response, w') →
  ∃ out err,
    response !! "stdout" = Some (VText out)
    ∧ response !! "stderr" = Some (VText err)
    ∧ (∃ a b, stdout cp = a ++ out ++ b
              ∧ Forall (λ c, isspace c = true) a
              ∧ Forall (λ c, isspace c = true) b)
    ∧ (∃ a b, stderr cp = a ++ err ++ b
              ∧ Forall (λ c, isspace c = true) a
              ∧ Forall (λ c, isspace c = true) b)
    ∧ (∀ c, head out = Some c ∨ last out = Some c
            ∨ head err = Some c ∨ last err = Some c →
            isspace c = false).
Proof.
  intros Hrun Hh.
  destruct (handler_inv_Ok _ _ _ _ _ _ _ _ _ Hrun Hh) as (w4 & Hasm & _).
  exists (strip (stdout cp)), (strip (stderr cp)).
  destruct (strip_spec (stdout cp)) as (a & b & Ho & Ha & Hb & Hoh & Hol).
  destruct (strip_spec (stderr cp)) as (a' & b' & He & Ha' & Hb' & Heh & Hel).
  assert (response !! "stdout" = Some (VText (strip (stdout cp)))
          ∧ response !! "stderr" = Some (VText (strip (stderr cp)))) as [? ?].
  { revert Hasm. unfold assemble, process_fields. case_bool_decide.
    - intros [= <- <-]. split; by lookup_fields.
    - intros (artifacts & w5 & Hcol & [= <- <-])%bind_inv_Ok.
      split; (rewrite lookup_union_r; [by lookup_fields|]);
        apply eq_None_not_Some; intros Hk;
        apply (collect_artifacts_keys _ _ _ _ _ _ _ Hcol) in Hk;
        by not_an_artifact Hk. }
  split_and!; [done|done|eauto|eauto|].
  intros c [?|[?|[?|?]]]; eauto.
Qed.

End Output.

(** ** The properties above, on runs *)

(** X2, on a download answered with status 200. *)
Lemma download_creates_fresh_file_witness :
  _download_to_file host_ok "https://example.org/report.pdf" ".pdf" w0
  = (Ok temp_pdf,
     set_files (insert temp_pdf (File (ascii_bytes "%PDF-1.7")))
       (log (HttpGet "https://example.org/report.pdf") w0))
  ∧ files w0 !! temp_pdf = None.
Proof.
  apply (download_creates_fresh_file host_ok "https://example.org/report.pdf"
           ".pdf" w0
           (mkstemp host_ok ".pdf"
              (log (HttpGet "https://example.org/report.pdf") w0)).2
           {| status_code := 200; content := ascii_bytes "%PDF-1.7" |} temp_pdf).
  - reflexivity.
  - simpl. lia.
  - by_evaluation.
Defined.

(** X3, on the eight bytes of a document header. *)
Lemma write_base64_roundtrip_witness :
  _write_base64_file host_ok
    (String.string_of_list_byte (Base64.b64encode (ascii_bytes "%PDF-1.7")))
    ".pdf" w0
  = (Ok temp_pdf, set_files (insert temp_pdf (File (ascii_bytes "%PDF-1.7"))) w0)
  ∧ files w0 !! temp_pdf = None.
Proof.
  apply (write_base64_roundtrip host_ok (ascii_bytes "%PDF-1.7") ".pdf" w0
           (mkstemp host_ok ".pdf" w0).2 temp_pdf).
  by_evaluation.
Defined.

(** X4, on a payload with incorrect padding. *)
Lemma rejected_payload_leaves_empty_file_witness :
  handler host_ok (job "pdf_base64" "abc") w0
  = (Raise BinasciiError, (mkstemp host_ok ".pdf" (mkdir_parents host_ok output_dir w0).2).2)
  ∧ files (mkstemp host_ok ".pdf" (mkdir_parents host_ok output_dir w0).2).2 !! temp_pdf
    = Some (File []).
Proof.
  destruct (rejected_payload_leaves_empty_file host_ok (job "pdf_base64" "abc")
              "abc" w0 (mkdir_parents host_ok output_dir w0).2
              (mkstemp host_ok ".pdf" (mkdir_parents host_ok output_dir w0).2).2
              temp_pdf BinasciiError)
    as (Hh & _ & _ & Hfile & _);
    [reflexivity|reflexivity|reflexivity|vm_compute; reflexivity
    |by_evaluation|by_evaluation|].
  split; [exact Hh|exact Hfile].
Defined.

(** X5, on the resolution of a [pdf_base64] job. *)
Lemma resolution_owns_what_it_cleans_witness :
  is_Some (files (resolved host_ok "pdf_base64" payload) !! temp_pdf)
  ∧ ([temp_pdf] = [] ∧ resolved host_ok "pdf_base64" payload
                        = (mkdir_parents host_ok output_dir w0).2
     ∨ [temp_pdf] = [temp_pdf]
       ∧ files (mkdir_parents host_ok output_dir w0).2 !! temp_pdf = None
       ∧ ∃ data, files (resolved host_ok "pdf_base64" payload)
                 = <[temp_pdf := File data]> (files (mkdir_parents host_ok output_dir w0).2)).
Proof.
  apply (resolution_owns_what_it_cleans host_ok {[ "pdf_base64" := payload ]}
           (mkdir_parents host_ok output_dir w0).2 (resolved host_ok "pdf_base64" payload)
           temp_pdf [temp_pdf]).
  by_evaluation.
Defined.

(** X6, on the default output directory, whose parent exists. *)
Lemma mkdir_parents_creates_path_witness :
  (∀ q, q ≠ [] → q `prefix_of` output_dir →
        files (mkdir_parents host_ok output_dir w0).2 !! q = Some Dir)
  ∧ (∀ q n, files w0 !! q = Some n →
            files (mkdir_parents host_ok output_dir w0).2 !! q = Some n)
  ∧ trace (mkdir_parents host_ok output_dir w0).2 = trace w0
  ∧ mkdir_parents host_ok output_dir (mkdir_parents host_ok output_dir w0).2
    = (Ok (), (mkdir_parents host_ok output_dir w0).2).
Proof.
  apply (mkdir_parents_creates_path host_ok output_dir w0
           (mkdir_parents host_ok output_dir w0).2).
  by_evaluation.
Defined.

(** X7, on a host where [/tmp] may not be written to: the handler raises
    [PermissionError] and the temporary file of the job is not created. *)
Lemma output_dir_blocked_witness :
  handler host_readonly (job "pdf_base64" payload) w0
  = (Raise PermissionError, w0)
  ∧ trace w0 = trace w0
  ∧ files w0 !! temp_pdf = None.
Proof.
  destruct (output_dir_blocked host_readonly (job "pdf_base64" payload) w0 w0
              PermissionError) as (Hh & Ht & _); [by_evaluation|].
  split_and!; [exact Hh|exact Ht|reflexivity].
Defined.

(** X9, on a host without the interpreter. *)
Lemma spawn_failure_skips_cleanup_witness :
  handler host_no_python (job "pdf_base64" payload) w0
  = (Raise FileNotFoundError, piped host_no_python "pdf_base64" payload)
  ∧ files (handler host_no_python (job "pdf_base64" payload) w0).2 !! temp_pdf
    = Some (File (ascii_bytes "%PDF-1.7")).
Proof.
  destruct (spawn_failure_skips_cleanup host_no_python
              (job "pdf_base64" payload) w0 (mkdir_parents host_no_python output_dir w0).2
              (resolved host_no_python "pdf_base64" payload)
              (piped host_no_python "pdf_base64" payload)
              temp_pdf [temp_pdf] FileNotFoundError)
    as [Hh Hkeep]; [by_evaluation|by_evaluation|by_evaluation|].
  split; [exact Hh|].
  apply Hkeep; [apply list_elem_of_singleton; reflexivity|].
  vm_compute. reflexivity.
Defined.

(** X10, on an event without [input]. *)
Lemma no_source_key_witness :
  handler host_ok ∅ w0
  = (Raise (HandlerError
       "No PDF input provided. Supply one of `pdf_path`, `pdf_url`, or `pdf_base64`."),
     (mkdir_parents host_ok output_dir w0).2)
  ∧ trace (mkdir_parents host_ok output_dir w0).2 = trace w0
  ∧ (output_dir_of host_ok (job_input_of ∅) ≠ [] →
     files (mkdir_parents host_ok output_dir w0).2 !! output_dir_of host_ok (job_input_of ∅)
     = Some Dir).
Proof.
  apply (no_source_key host_ok ∅ w0 (mkdir_parents host_ok output_dir w0).2).
  - reflexivity.
  - reflexivity.
  - reflexivity.
  - by_evaluation.
Defined.

(** The run of a pipeline that writes a layout document. *)
Lemma ran_layout_base64 :
  pipeline_ran host_layout (job "pdf_base64" payload) w0 temp_pdf [temp_pdf]
    {| args := command_of host_layout {[ "pdf_base64" := payload ]} temp_pdf;
       returncode := 0; stdout := code_points ""; stderr := code_points "" |}
    (piped host_layout "pdf_base64" payload).
Proof.
  exists (mkdir_parents host_layout output_dir w0).2, (resolved host_layout "pdf_base64" payload).
  split_and!; by_evaluation.
Qed.

(** X13, on a run that wrote a layout document of eight bytes. *)
Lemma layout_is_always_base64_witness :
  ∃ s,
    response_of (_collect_artifacts host_layout temp_pdf output_dir
                   (piped host_layout "pdf_base64" payload))
      !! "layout_pdf_base64" = Some (VText (code_points s))
    ∧ Base64.canonical (String.list_byte_of_string s) = true
    ∧ Base64.b64decode s = Ok (ascii_bytes "%PDF-1.5").
Proof.
  destruct (layout_is_always_base64 host_layout temp_pdf output_dir
              (piped host_layout "pdf_base64" payload)
              (_collect_artifacts host_layout temp_pdf output_dir
                 (piped host_layout "pdf_base64" payload)).2
              (response_of (_collect_artifacts host_layout temp_pdf output_dir
                              (piped host_layout "pdf_base64" payload))))
    as [Hfile _]; [by_evaluation|].
  destruct (Hfile (ascii_bytes "%PDF-1.5")) as [_ Hs]; [vm_compute; reflexivity|].
  exact Hs.
Defined.

(** X14, on a run that wrote both markdown files and an images directory. *)
Lemma artifact_fields_mirror_files_witness :
  is_Some (response_of (handler host_ok (job "pdf_base64" payload) w0)
             !! "markdown_path")
  ∧ response_of (handler host_ok (job "pdf_base64" payload) w0)
      !! "markdown_missing" = None.
Proof.
  destruct (artifact_fields_mirror_files host_ok (job "pdf_base64" payload) w0
              (piped host_ok "pdf_base64" payload)
              (handler host_ok (job "pdf_base64" payload) w0).2
              temp_pdf [temp_pdf] _
              (response_of (handler host_ok (job "pdf_base64" payload) w0))
              ran_ok_base64 eq_refl)
    as (Hfile & Hpath & Hmissing & _); [by_evaluation|].
  assert (is_Some (response_of (handler host_ok (job "pdf_base64" payload) w0)
                     !! "markdown")) as Hmd.
  { apply Hfile. exists (File (ascii_bytes "# Title")). vm_compute. reflexivity. }
  split; [apply Hpath, Hmd|apply Hmissing, Hmd].
Defined.

(** X16, on a run with a temporary input: the stored document is as the
    pipeline left it. *)
Lemma handler_touches_only_its_own_witness :
  files (handler host_ok (job "pdf_base64" payload) w0).2 !! stored_pdf
  = files (piped host_ok "pdf_base64" payload) !! stored_pdf.
Proof.
  apply (handler_touches_only_its_own host_ok (job "pdf_base64" payload) w0
           (piped host_ok "pdf_base64" payload) temp_pdf [temp_pdf] _ stored_pdf
           ran_ok_base64).
  - vm_compute. discriminate.
  - intros p ->%list_elem_of_singleton [rest Hrest]. vm_compute in Hrest.
    discriminate.
Defined.

(** X17, on a run whose pipeline printed a line that starts with a
    no-break space (U+00A0) and ends with a carriage return and a line feed. *)
Lemma response_output_is_stripped_witness :
  ∃ out err,
    response_of (handler host_nbsp (job "pdf_base64" payload) w0) !! "stdout"
    = Some (VText out)
    ∧ response_of (handler host_nbsp (job "pdf_base64" payload) w0) !! "stderr"
      = Some (VText err)
    ∧ (∃ a b, [160; 49; 32; 112; 97; 103; 101; 10]%N = a ++ out ++ b
              ∧ Forall (λ c, isspace c = true) a
              ∧ Forall (λ c, isspace c = true) b)
    ∧ (∃ a b, [] = a ++ err ++ b
              ∧ Forall (λ c, isspace c = true) a
              ∧ Forall (λ c, isspace c = true) b)
    ∧ (∀ c, head out = Some c ∨ last out = Some c
            ∨ head err = Some c ∨ last err = Some c →
            isspace c = false).
Proof.
  apply (response_output_is_stripped host_nbsp (job "pdf_base64" payload) w0
           (piped host_nbsp "pdf_base64" payload)
           (handler host_nbsp (job "pdf_base64" payload) w0).2
           temp_pdf [temp_pdf]
           {| args := command_of host_nbsp {[ "pdf_base64" := payload ]} temp_pdf;
              returncode := 0;
              stdout := [160; 49; 32; 112; 97; 103; 101; 10]%N;
              stderr := [] |}
           (response_of (handler host_nbsp (job "pdf_base64" payload) w0))).
  - exists (mkdir_parents host_nbsp output_dir w0).2, (resolved host_nbsp "pdf_base64" payload).
    split_and!; by_evaluation.
  - by_evaluation.
Defined.
